(** * Korean colour-analysis bot: session funnel and payment reconciliation

    A shallow embedding of the JavaScript sources

      - [utils/PaymentManager.js]      (class [PaymentManager])
      - [utils/ConversationManager.js] (class [ConversationManager])
      - [utils/GeminiColorAnalyzer.js] (class [GeminiColorAnalyzer])
      - [server.js]                    (the Aisensy message handlers)

    together with the properties of the specification that concern them.

    Conventions of the embedding.
      - A JS object that is mutated in place is threaded explicitly: a
        method of a class takes the instance state and returns the new one.
      - Asynchronous calls are run to completion; what an external
        collaborator answers (the messaging gateway, Razorpay, Gemini, the
        file system, the clock) is an explicit argument of the model.
      - A JS exception is a value [Thrown]; [try]/[catch] is a function.
      - ISO timestamps are the integer they denote (milliseconds).
      - What the runtime computes is a parameter: the HMAC and
        [JSON.stringify], [toLowerCase] and [trim] on strings, and the
        offset of the local time zone. *)

From stdpp Require Import gmap strings list fin_maps.
From Stdlib Require Import ZArith Ascii String.

Open Scope string_scope.
Open Scope Z_scope.
Open Scope list_scope.

(** ** JavaScript strings *)

(** A text is kept as the byte string of its UTF-8 form. The sources test
    texts against ASCII literals only, with [includes] and [===]; an ASCII
    literal occurs in a text, or equals it, exactly when it does so byte by
    byte. *)

Module JSString.

(** [s.includes(sub)]: [sub] occurs in [s] as a contiguous substring. *)
Fixpoint includes (s sub : string) : bool :=
  String.prefix sub s ||
  match s with
  | EmptyString => false
  | String _ s' => includes s' sub
  end.

(** [String.prototype.toLowerCase] and [String.prototype.trim]. They follow
    the Unicode case mapping and the white space and line terminators of
    ECMAScript (among them U+00A0, U+FEFF, U+2028, U+2029 and the space
    separators), so what they compute is left to the runtime: the handlers
    are embedded over any two such functions. *)
Class Prototype := {
  toLowerCase : string → string;
  trim : string → string;
}.

(** What the two methods compute on a text of ASCII characters, which the
    examples use. *)
Definition lowerAscii (c : ascii) : ascii :=
  let n := nat_of_ascii c in
  if (Nat.leb 65 n && Nat.leb n 90)%bool then ascii_of_nat (n + 32) else c.

Fixpoint toLowerCaseAscii (s : string) : string :=
  match s with
  | EmptyString => EmptyString
  | String c s' => String (lowerAscii c) (toLowerCaseAscii s')
  end.

(** White space and line terminators of the ASCII range. *)
Definition isSpaceAscii (c : ascii) : bool :=
  let n := nat_of_ascii c in
  (Nat.leb 9 n && Nat.leb n 13)%bool || Nat.eqb n 32.

Fixpoint trimStartAscii (s : string) : string :=
  match s with
  | EmptyString => EmptyString
  | String c s' => if isSpaceAscii c then trimStartAscii s' else s
  end.

Fixpoint trimEndAscii (s : string) : string :=
  match s with
  | EmptyString => EmptyString
  | String c s' =>
      match trimEndAscii s' with
      | EmptyString => if isSpaceAscii c then EmptyString else String c EmptyString
      | r => String c r
      end
  end.

Definition trimAscii (s : string) : string := trimEndAscii (trimStartAscii s).

End JSString.

(** ** JavaScript dates, in local time *)

Module JSDate.

(** [LocalTZA(t, isUTC)] of ECMAScript: the offset of the local time zone,
    in milliseconds, at the instant [t] ([isUTC] true) or at the local time
    [t] ([isUTC] false). The host and its time zone decide. *)
Class TimeZone := {
  LocalTZA : Z → bool → Z;
}.

Definition msPerDay : Z := 24 * 60 * 60 * 1000.

Definition LocalTime `{TimeZone} (t : Z) : Z := t + LocalTZA t true.

Definition UTC `{TimeZone} (t : Z) : Z := t - LocalTZA t false.

(** [d.setDate(d.getDate() - days)] on [d = new Date()], taken at [now]:
    [setDate] keeps the time within the day of the local time and moves
    its day by [days] days back, and reads the result as a local time. *)
Definition daysAgo `{TimeZone} (days : Z) (now : Z) : Z :=
  UTC (LocalTime now - days * msPerDay).

End JSDate.

(** ** JavaScript [Map], with its insertion order

  [PaymentManager.pendingPayments] is read in iteration order by
  [getPaymentByPhoneNumber] (the first matching entry wins), so the map
  is kept as the list of its entries in insertion order, keys unique. *)

Module JSMap.
Section JSMap.
Context {V : Type}.

Definition t : Type := list (string * V).

Definition empty : t := [].

Fixpoint get (m : t) (k : string) : option V :=
  match m with
  | [] => None
  | (k', v) :: m' => if String.eqb k k' then Some v else get m' k
  end.

(** [set] keeps the position of an existing key and appends a new one. *)
Fixpoint set (m : t) (k : string) (v : V) : t :=
  match m with
  | [] => [(k, v)]
  | (k', v') :: m' =>
      if String.eqb k k' then (k, v) :: m' else (k', v') :: set m' k v
  end.

(** [delete] removes the entry of the key, if there is one. *)
Fixpoint delete (m : t) (k : string) : t :=
  match m with
  | [] => []
  | (k', v') :: m' =>
      if String.eqb k k' then m' else (k', v') :: delete m' k
  end.

Definition values (m : t) : list V := m.*2.

Definition keys (m : t) : list string := m.*1.

End JSMap.
Arguments t : clear implicits.
End JSMap.

(** ** JavaScript exceptions *)

(** What an [Error] carries as far as the sources look at it:
    [error.code], [error.response?.status] and [error.message]. *)
Record JSError := {
  code : option string;
  responseStatus : option Z;
  message : string;
}.

Definition Error (msg : string) : JSError :=
  {| code := None; responseStatus := None; message := msg |}.

(** The completion of a call: it returns or it throws. *)
Inductive Completion (A : Type) : Type :=
| Returned (a : A)
| Thrown (e : JSError).
Arguments Returned {A} a.
Arguments Thrown {A} e.

(** ** utils/GeminiColorAnalyzer.js *)

Module GeminiColorAnalyzer.

Record Color := { name : string; hex : string }.

(** An analysis record that passed [validateAnalysis]. *)
Record Analysis := {
  season : string;
  undertone : string;
  summary : string;
  key_colors : list Color;
  neutrals : list Color;
  accent_colors : list Color;
  hair_colors : list string;
  colors_to_avoid : list Color;
}.

(** [{ success: true, analysis }] or [{ success: false, error }]. *)
Inductive AnalysisResult :=
| AnalysisSuccess (analysis : Analysis)
| AnalysisFailure (error : string).

Definition success (r : AnalysisResult) : bool :=
  match r with AnalysisSuccess _ => true | AnalysisFailure _ => false end.

(** How the [try] block of [analyzeColors] ends: the request, the parsing
    and the validation either yield an analysis or throw. *)
Inductive GeminiReply :=
| GeminiAnalysis (a : Analysis)
| GeminiThrows (e : JSError).

(** [process.env.NEXT_PUBLIC_GEMINI_API_KEY]: a missing or empty key is falsy. *)
Definition truthy (s : option string) : bool :=
  match s with
  | None => false
  | Some s => negb (String.eqb s EmptyString)
  end.

(** [analyzeColors(file, mimeType)]: the [catch] turns every exception of
    the [try] block into a failure result. *)
Definition analyzeColors (apiKey : option string) (reply : GeminiReply)
  : AnalysisResult :=
  if negb (truthy apiKey) then
    AnalysisFailure "Gemini API key is not configured."
  else
    match reply with
    | GeminiAnalysis analysisData => AnalysisSuccess analysisData
    | GeminiThrows error =>
        if bool_decide (code error = Some "ECONNABORTED") then
          AnalysisFailure "Analysis timed out. Please try with a smaller image."
        else if bool_decide (responseStatus error = Some 429) then
          AnalysisFailure "Too many requests. Please try again in a few moments."
        else if bool_decide (responseStatus error = Some 400) then
          AnalysisFailure
            "Invalid image format. Please try with a clear JPEG or PNG image."
        else
          AnalysisFailure
            (if String.eqb (message error) EmptyString
             then "An unknown error occurred during analysis. Please try again."
             else message error)
    end.

(** [{ valid: true }] or [{ valid: false, error }]. *)
Inductive Validation :=
| Valid
| Invalid (error : string).

Definition validTypes : list string := ["image/jpeg"; "image/png"; "image/webp"].

(** [validateImage({ size, type }, maxSize = 5 * 1024 * 1024)]. *)
Definition validateImage (size : Z) (type : string) : Validation :=
  let maxSize := 5 * 1024 * 1024 in
  if bool_decide (size ≠ 0) && bool_decide (size > maxSize) then
    Invalid "Image file size should be less than 5MB."
  else if negb (String.eqb type EmptyString) && negb (bool_decide (type ∈ validTypes)) then
    Invalid "Please upload a valid image file (JPEG, PNG, or WebP)."
  else Valid.

(** [analyzeFromBuffer(imageBuffer, mimeType)]. *)
Definition analyzeFromBuffer (apiKey : option string) (reply : GeminiReply)
    (imageBuffer : list Byte.byte) (mimeType : string) : AnalysisResult :=
  match validateImage (Z.of_nat (List.length imageBuffer)) mimeType with
  | Invalid error => AnalysisFailure error
  | Valid => analyzeColors apiKey reply
  end.

End GeminiColorAnalyzer.

(** ** utils/PaymentManager.js *)

Module PaymentManager.
Import GeminiColorAnalyzer.

(** [paymentData.status]: ['created'], ['completed'] or ['failed']. *)
Inductive PaymentStatus := created | completed | failed.

#[global] Instance PaymentStatus_eq_dec : EqDecision PaymentStatus.
Proof. solve_decision. Defined.

(** A Razorpay payment entity, as far as the manager reads it. *)
Record PaymentEntity := {
  id : string;
  order_id : string;
  entity_status : string;
  error_reason : option string;
}.

(** A Razorpay order entity. *)
Record OrderEntity := { order_entity_id : string }.

(** The record kept per order in [pendingPayments]. *)
Record PaymentData := {
  orderId : string;
  phoneNumber : string;
  amount : Z;
  currency : string;
  status : PaymentStatus;
  createdAt : Z;
  analysis : Analysis;
  paymentId : option string;
  completedAt : option Z;
  razorpayPayment : option PaymentEntity;
  failedAt : option Z;
  failureReason : option string;
}.

(** The instance: the map of orders, and the trace of the calls of
    [triggerPostPaymentActions] (the phone number each one logged). *)
Record Self := {
  pendingPayments : JSMap.t PaymentData;
  postPaymentActions : list string;
}.

Definition constructor : Self :=
  {| pendingPayments := JSMap.empty; postPaymentActions := [] |}.

Definition setPayments (this : Self) (m : JSMap.t PaymentData) : Self :=
  {| pendingPayments := m; postPaymentActions := postPaymentActions this |}.

(** The body of a webhook: [payload.payload.payment?.entity] and
    [payload.payload.order?.entity]; [payload.payload] itself may be
    missing, and reading through it then throws. *)
Record WebhookEntities := {
  payment : option PaymentEntity;
  order : option OrderEntity;
}.

Record WebhookPayload := {
  event : string;
  payload : option WebhookEntities;
}.

(** [process.env]. *)
Record ProcessEnv := {
  RAZORPAY_KEY_SECRET : option string;
  RAZORPAY_WEBHOOK_SECRET : option string;
  BASE_URL : option string;
}.

(** [crypto.createHmac('sha256', key).update(data).digest('hex')] and
    [JSON.stringify] on webhook bodies, left abstract. *)
Class NodeRuntime := {
  hmacSha256Hex : string → string → string;
  JSON_stringify : WebhookPayload → string;
}.

(** [{ success: true }] or [{ success: false, error }]. *)
Inductive WebhookResult :=
| WebhookSuccess
| WebhookFailure (error : string).

(** The result of [verifyPayment]. [paymentData] is [undefined] when the
    order is not in the map. *)
Inductive VerifyResult :=
| VerifySuccess (paymentData : option PaymentData) (razorpayPayment : PaymentEntity)
| VerifyFailure (error : string).

(** The result of [checkPaymentStatus]:
    [{ success: true, status, data }] or [{ success: false, error }]. *)
Inductive StatusResult :=
| StatusSuccess (status : PaymentStatus) (data : PaymentData)
| StatusFailure (error : string).

Section Methods.
Context `{NodeRuntime} `{JSDate.TimeZone}.
Variable env : ProcessEnv.

Definition baseUrl : string :=
  match BASE_URL env with
  | Some u => if String.eqb u EmptyString then "https://your-domain.com" else u
  | None => "https://your-domain.com"
  end.

(** [createPaymentLink(phoneNumber, analysis)]; [order] is what
    [razorpay.orders.create] answers: an order id, or a rejection. *)
Definition createPaymentLink (now : Z) (order : Completion string)
    (phoneNumber : string) (analysis : Analysis) (this : Self)
  : Completion string * Self :=
  match order with
  | Returned order_id =>
      let paymentData :=
        {| orderId := order_id; phoneNumber := phoneNumber;
           amount := 69900; currency := "INR"; status := created;
           createdAt := now; analysis := analysis;
           paymentId := None; completedAt := None; razorpayPayment := None;
           failedAt := None; failureReason := None |} in
      (Returned (baseUrl +:+ "/pay/" +:+ order_id),
       setPayments this (JSMap.set (pendingPayments this) order_id paymentData))
  | Thrown _ =>
      (Thrown (Error "Failed to create payment link. Please try again."), this)
  end.

(** The four assignments shared by the three completion paths. *)
Definition markCompleted (now : Z) (pid : string) (entity : PaymentEntity)
    (paymentData : PaymentData) : PaymentData :=
  {| orderId := orderId paymentData; phoneNumber := phoneNumber paymentData;
     amount := amount paymentData; currency := currency paymentData;
     status := completed;
     createdAt := createdAt paymentData; analysis := analysis paymentData;
     paymentId := Some pid;
     completedAt := Some now;
     razorpayPayment := Some entity;
     failedAt := failedAt paymentData;
     failureReason := failureReason paymentData |}.

(** [verifyPayment(razorpayOrderId, razorpayPaymentId, razorpaySignature)];
    [fetched] is what [razorpay.payments.fetch] answers. *)
Definition verifyPayment (now : Z) (fetched : Completion PaymentEntity)
    (razorpayOrderId razorpayPaymentId razorpaySignature : string)
    (this : Self) : VerifyResult * Self :=
  let caught :=
    (VerifyFailure "Payment verification failed. Please contact support.", this) in
  match RAZORPAY_KEY_SECRET env with
  | None => caught  (* createHmac throws on an undefined key *)
  | Some key_secret =>
      let sign := razorpayOrderId +:+ "|" +:+ razorpayPaymentId in
      let expectedSign := hmacSha256Hex key_secret sign in
      let isSignatureValid := String.eqb razorpaySignature expectedSign in
      if negb isSignatureValid then
        (VerifyFailure "Payment signature verification failed", this)
      else
        match fetched with
        | Thrown _ => caught
        | Returned payment =>
            if negb (String.eqb (entity_status payment) "captured") then
              (VerifyFailure "Payment not captured", this)
            else
              match JSMap.get (pendingPayments this) razorpayOrderId with
              | Some paymentData =>
                  let paymentData' :=
                    markCompleted now razorpayPaymentId payment paymentData in
                  (VerifySuccess (Some paymentData') payment,
                   setPayments this
                     (JSMap.set (pendingPayments this) razorpayOrderId paymentData'))
              | None => (VerifySuccess None payment, this)
              end
        end
  end.

(** [checkPaymentStatus(orderId)], the polling path; [order] is the status
    of the order [razorpay.orders.fetch] answers and [payments] the items
    [razorpay.orders.fetchPayments] answers. *)
Definition checkPaymentStatus (now : Z) (order : Completion string)
    (payments : Completion (list PaymentEntity)) (orderId : string)
    (this : Self) : StatusResult * Self :=
  let caught := (StatusFailure "Failed to check payment status", this) in
  match JSMap.get (pendingPayments this) orderId with
  | None => (StatusFailure "Payment record not found", this)
  | Some paymentData =>
      if bool_decide (status paymentData = completed) then
        (StatusSuccess completed paymentData, this)
      else
        match order with
        | Thrown _ => caught
        | Returned order_status =>
            let unchanged := (StatusSuccess (status paymentData) paymentData, this) in
            if String.eqb order_status "paid" then
              match payments with
              | Thrown _ => caught
              | Returned [] => unchanged
              | Returned (payment :: _) =>
                  if String.eqb (entity_status payment) "captured" then
                    let paymentData' :=
                      markCompleted now (id payment) payment paymentData in
                    (StatusSuccess completed paymentData',
                     setPayments this
                       (JSMap.set (pendingPayments this) orderId paymentData'))
                  else unchanged
              end
            else unchanged
        end
  end.

(** [getPaymentByPhoneNumber(phoneNumber)]: the first entry, in insertion
    order, of that phone number. *)
Definition getPaymentByPhoneNumber (phone : string) (this : Self)
  : option PaymentData :=
  List.find (λ paymentData, String.eqb (phoneNumber paymentData) phone)
            (JSMap.values (pendingPayments this)).

(** [triggerPostPaymentActions(paymentData)]: logs the phone number. *)
Definition triggerPostPaymentActions (paymentData : PaymentData)
    (this : Self) : Self :=
  {| pendingPayments := pendingPayments this;
     postPaymentActions := postPaymentActions this ++ [phoneNumber paymentData] |}.

(** [updatePaymentFromWebhook(orderId, paymentEntity)]. *)
Definition updatePaymentFromWebhook (now : Z) (orderId : string)
    (paymentEntity : PaymentEntity) (this : Self) : Self :=
  match JSMap.get (pendingPayments this) orderId with
  | Some paymentData =>
      let paymentData' :=
        markCompleted now (id paymentEntity) paymentEntity paymentData in
      let this' :=
        setPayments this (JSMap.set (pendingPayments this) orderId paymentData') in
      triggerPostPaymentActions paymentData' this'
  | None => this
  end.

(** [markPaymentFailed(orderId, paymentEntity)]. *)
Definition markPaymentFailed (now : Z) (orderId0 : string)
    (paymentEntity : PaymentEntity) (this : Self) : Self :=
  match JSMap.get (pendingPayments this) orderId0 with
  | Some paymentData =>
      let paymentData' :=
        {| orderId := orderId paymentData; phoneNumber := phoneNumber paymentData;
           amount := amount paymentData; currency := currency paymentData;
           status := failed;
           createdAt := createdAt paymentData; analysis := analysis paymentData;
           paymentId := paymentId paymentData;
           completedAt := completedAt paymentData;
           razorpayPayment := razorpayPayment paymentData;
           failedAt := Some now;
           failureReason :=
             Some (match error_reason paymentEntity with
                   | Some r => if String.eqb r EmptyString then "Unknown error" else r
                   | None => "Unknown error"
                   end) |} in
      setPayments this (JSMap.set (pendingPayments this) orderId0 paymentData')
  | None => this
  end.

(** [process.env.RAZORPAY_WEBHOOK_SECRET || '']. *)
Definition webhookSecret : string :=
  match RAZORPAY_WEBHOOK_SECRET env with
  | Some s => s
  | None => EmptyString
  end.

(** [handleWebhook(payload, signature)]. *)
Definition handleWebhook (now : Z) (body : WebhookPayload) (signature : string)
    (this : Self) : WebhookResult * Self :=
  let expectedSignature := hmacSha256Hex webhookSecret (JSON_stringify body) in
  let isSignatureValid := String.eqb signature expectedSignature in
  if negb isSignatureValid then
    (WebhookFailure "Invalid signature", this)
  else
    match payload body with
    | None => (WebhookFailure "Webhook processing failed", this)
    | Some entities =>
        let paymentEntity := payment entities in
        if String.eqb (event body) "payment.captured" then
          match paymentEntity with
          | Some e => (WebhookSuccess, updatePaymentFromWebhook now (order_id e) e this)
          | None => (WebhookSuccess, this)
          end
        else if String.eqb (event body) "payment.failed" then
          match paymentEntity with
          | Some e => (WebhookSuccess, markPaymentFailed now (order_id e) e this)
          | None => (WebhookSuccess, this)
          end
        else (WebhookSuccess, this)
    end.

(** [getCompletedPaymentsByPhoneNumber(phoneNumber)]. *)
Definition getCompletedPaymentsByPhoneNumber (phone : string) (this : Self)
  : list PaymentData :=
  List.filter
    (λ paymentData,
       String.eqb (phoneNumber paymentData) phone &&
       bool_decide (status paymentData = completed))
    (JSMap.values (pendingPayments this)).

(** [sevenDaysAgo.setDate(sevenDaysAgo.getDate() - 7)], in the local time
    of the server. *)
Definition sevenDaysAgo (now : Z) : Z := JSDate.daysAgo 7 now.

(** The test of the loop of [cleanupOldPayments]. *)
Definition stale (now : Z) (payment : PaymentData) : bool :=
  bool_decide (createdAt payment < sevenDaysAgo now) &&
  negb (bool_decide (status payment = completed)).

(** One iteration of that loop, on the map and the counter. *)
Definition cleanupPaymentsStep (now : Z) (acc : JSMap.t PaymentData * nat)
    (entry : string * PaymentData) : JSMap.t PaymentData * nat :=
  if stale now entry.2
  then (JSMap.delete acc.1 entry.1, S acc.2)
  else acc.

(** [cleanupOldPayments()]: the instance afterwards and the final value of
    the local [cleanedCount], which is logged when positive. The loop
    visits the entries the map had at the start; it deletes only the entry
    it is visiting. *)
Definition cleanupOldPayments (now : Z) (this : Self) : Self * nat :=
  let r := foldl (cleanupPaymentsStep now) (pendingPayments this, 0%nat)
             (pendingPayments this) in
  (setPayments this r.1, r.2).

End Methods.

(** A webhook body that carries a payment entity under the given event. *)
Definition carries (body : WebhookPayload) (ev : string) (e : PaymentEntity) : Prop :=
  event body = ev ∧ ∃ entities, payload body = Some entities ∧ payment entities = Some e.

(** What the gateway tells the manager: a webhook, or the answers to a
    poll of an order. *)
Inductive GatewayEvent :=
| Webhook (now : Z) (body : WebhookPayload)
| Poll (now : Z) (orderId : string) (order : Completion string)
    (payments : Completion (list PaymentEntity)).

(** The order and the status a gateway event reports, if it reports one:
    the two cases of the [switch] of [handleWebhook] that change an order,
    and the poll that finds the order paid and its first payment captured. *)
Definition reported (ev : GatewayEvent) : option (string * PaymentStatus) :=
  match ev with
  | Webhook _ body =>
      match payload body with
      | Some entities =>
          match payment entities with
          | Some e =>
              if String.eqb (event body) "payment.captured"
              then Some (order_id e, completed)
              else if String.eqb (event body) "payment.failed"
              then Some (order_id e, failed)
              else None
          | None => None
          end
      | None => None
      end
  | Poll _ k (Returned order_status) (Returned (payment :: _)) =>
      if String.eqb order_status "paid" && String.eqb (entity_status payment) "captured"
      then Some (k, completed)
      else None
  | Poll _ _ _ _ => None
  end.

(** The status of order [k] after the reports of [events], oldest first,
    when each report overwrites the status. *)
Definition lastReported (k : string) (events : list GatewayEvent)
    (st : PaymentStatus) : PaymentStatus :=
  foldl (λ st ev,
           match reported ev with
           | Some (k', st') => if String.eqb k' k then st' else st
           | None => st
           end) st events.

Section Deliveries.
Context `{NodeRuntime}.
Variable env : ProcessEnv.

(** The delivery at time [d.1] of the webhook body [d.2], signed with the
    webhook secret. *)
Definition deliver (this : Self) (d : Z * WebhookPayload) : Self :=
  (handleWebhook env d.1 d.2
     (hmacSha256Hex (webhookSecret env) (JSON_stringify d.2)) this).2.

(** The manager after a gateway event: a signed webhook is handled, a poll
    goes through [checkPaymentStatus]. *)
Definition reconcile (this : Self) (ev : GatewayEvent) : Self :=
  match ev with
  | Webhook now body => deliver this (now, body)
  | Poll now k order payments => (checkPaymentStatus now order payments k this).2
  end.

Definition reconcileAll (this : Self) (events : list GatewayEvent) : Self :=
  foldl reconcile this events.

End Deliveries.

(** The status of order [k] in the instance. *)
Definition statusOf (this : Self) (k : string) : option PaymentStatus :=
  status <$> JSMap.get (pendingPayments this) k.

End PaymentManager.

(** ** utils/ConversationManager.js *)

Module ConversationManager.
Import GeminiColorAnalyzer.

(** The values [conversation.state] takes in the sources. *)
Inductive State :=
| initial
| welcome
| guide_shown
| waiting_for_photo
| analyzing
| results_shown
| payment_pending
| completed
| payment_completed.

#[global] Instance State_eq_dec : EqDecision State.
Proof. solve_decision. Defined.

Record UserInfo := { name : string }.

(** A conversation object. [lastActive] is the date [new Date(lastActive)]
    denotes, [None] when it is an invalid date; [paymentLink] is the
    property the server adds. *)
Record Conversation := {
  phoneNumber : string;
  state : State;
  createdAt : Z;
  lastActive : option Z;
  messageCount : Z;
  userInfo : UserInfo;
  analysis : option Analysis;
  paymentInfo : option Z;
  pdfGenerated : bool;
  paymentLink : option string;
}.

(** Field updates of a conversation object. *)
Definition set_state (s : State) (c : Conversation) : Conversation :=
  {| phoneNumber := phoneNumber c; state := s; createdAt := createdAt c;
     lastActive := lastActive c; messageCount := messageCount c;
     userInfo := userInfo c; analysis := analysis c;
     paymentInfo := paymentInfo c; pdfGenerated := pdfGenerated c;
     paymentLink := paymentLink c |}.

Definition set_analysis (a : option Analysis) (c : Conversation) : Conversation :=
  {| phoneNumber := phoneNumber c; state := state c; createdAt := createdAt c;
     lastActive := lastActive c; messageCount := messageCount c;
     userInfo := userInfo c; analysis := a;
     paymentInfo := paymentInfo c; pdfGenerated := pdfGenerated c;
     paymentLink := paymentLink c |}.

Definition set_paymentLink (l : option string) (c : Conversation) : Conversation :=
  {| phoneNumber := phoneNumber c; state := state c; createdAt := createdAt c;
     lastActive := lastActive c; messageCount := messageCount c;
     userInfo := userInfo c; analysis := analysis c;
     paymentInfo := paymentInfo c; pdfGenerated := pdfGenerated c;
     paymentLink := l |}.

Definition set_pdfGenerated (b : bool) (c : Conversation) : Conversation :=
  {| phoneNumber := phoneNumber c; state := state c; createdAt := createdAt c;
     lastActive := lastActive c; messageCount := messageCount c;
     userInfo := userInfo c; analysis := analysis c;
     paymentInfo := paymentInfo c; pdfGenerated := b;
     paymentLink := paymentLink c |}.

Definition set_lastActive (t : option Z) (c : Conversation) : Conversation :=
  {| phoneNumber := phoneNumber c; state := state c; createdAt := createdAt c;
     lastActive := t; messageCount := messageCount c;
     userInfo := userInfo c; analysis := analysis c;
     paymentInfo := paymentInfo c; pdfGenerated := pdfGenerated c;
     paymentLink := paymentLink c |}.

Definition set_messageCount (n : Z) (c : Conversation) : Conversation :=
  {| phoneNumber := phoneNumber c; state := state c; createdAt := createdAt c;
     lastActive := lastActive c; messageCount := n;
     userInfo := userInfo c; analysis := analysis c;
     paymentInfo := paymentInfo c; pdfGenerated := pdfGenerated c;
     paymentLink := paymentLink c |}.

(** What a call evaluates to for a method whose body has no [return]. *)
Inductive JSValue :=
| undefined
| number (n : Z).

(** The instance: [this.conversations]. No modelled method observes the
    iteration order of this map. *)
Record Self := {
  conversations : gmap string Conversation;
}.

(** [createConversation(phoneNumber, userInfo = {})]; [name] is
    [userInfo.name], [None] when the caller gave none. *)
Definition createConversation (now : Z) (phone : string) (name : option string)
    (this : Self) : Conversation * Self :=
  let conversation :=
    {| phoneNumber := phone;
       state := initial;
       createdAt := now;
       lastActive := Some now;
       messageCount := 0;
       userInfo := {| name := match name with Some n => n | None => "User" end |};
       analysis := None;
       paymentInfo := None;
       pdfGenerated := false;
       paymentLink := None |} in
  (conversation, {| conversations := <[phone := conversation]> (conversations this) |}).

(** [getConversation(phoneNumber)]. *)
Definition getConversation (phone : string) (this : Self) : option Conversation :=
  conversations this !! phone.

(** [saveConversation(phoneNumber, conversation)]. *)
Definition saveConversation (now : Z) (phone : string) (conversation : Conversation)
    (this : Self) : Self :=
  let conversation := set_lastActive (Some now) conversation in
  let conversation := set_messageCount (messageCount conversation + 1) conversation in
  {| conversations := <[phone := conversation]> (conversations this) |}.

(** [thirtyDaysAgo.setDate(thirtyDaysAgo.getDate() - 30)], in the local
    time of the server. *)
Definition thirtyDaysAgo `{JSDate.TimeZone} (now : Z) : Z := JSDate.daysAgo 30 now.

(** The condition under which the loop of [cleanupOldConversations]
    deletes an entry; an invalid date compares false. *)
Definition expired `{JSDate.TimeZone} (now : Z) (conversation : Conversation) : bool :=
  match lastActive conversation with
  | Some t => bool_decide (t < thirtyDaysAgo now)
  | None => false
  end
  && negb (bool_decide (is_Some (analysis conversation)))
  && negb (pdfGenerated conversation).

(** One iteration of the loop, on the map and the counter. *)
Definition cleanupStep `{JSDate.TimeZone} (now : Z) (acc : gmap string Conversation * nat)
    (entry : string * Conversation) : gmap string Conversation * nat :=
  if expired now entry.2
  then (delete entry.1 acc.1, S acc.2)
  else acc.

(** The run of [cleanupOldConversations()]: the instance afterwards, the
    final value of the local [cleanedCount] (which is logged when
    positive), whether [saveAllConversations] was called, and the value of
    the call. *)
Record CleanupRun := {
  after : Self;
  cleanedCount : nat;
  saved : bool;
  returned : JSValue;
}.

Definition cleanupOldConversations `{JSDate.TimeZone} (now : Z) (this : Self)
  : CleanupRun :=
  let entries := map_to_list (conversations this) in
  let r := foldl (cleanupStep now) (conversations this, 0%nat) entries in
  {| after := {| conversations := r.1 |};
     cleanedCount := r.2;
     saved := bool_decide (0 < r.2)%nat;
     returned := undefined |}.

(** Every session is stored under its own [phoneNumber]. *)
Definition wellKeyed (this : Self) : Prop :=
  ∀ k c, conversations this !! k = Some c → phoneNumber c = k.

(** [data/conversations.json]: no file, a file that cannot be read or
    parsed into an array, or the array of sessions it holds. *)
Inductive File :=
| Missing
| Unreadable
| Array (conversationsArray : list Conversation).

(** [new Map(conversationsArray.map(conv => [conv.phoneNumber, conv]))]:
    of two entries with one phone number the later one stays. *)
Definition mapOfArray (conversationsArray : list Conversation)
  : gmap string Conversation :=
  foldl (λ m conv, <[phoneNumber conv := conv]> m) ∅ conversationsArray.

(** [loadConversations()]: without a file the map stays; the [catch]
    replaces it by an empty map. *)
Definition loadConversations (file : File) (this : Self) : Self :=
  match file with
  | Missing => this
  | Unreadable => {| conversations := ∅ |}
  | Array conversationsArray => {| conversations := mapOfArray conversationsArray |}
  end.

(** [Array.from(this.conversations.values())], which [saveAllConversations]
    writes: the sessions of the map, each once. The map of the model does
    not keep the insertion order, so any order of them counts. *)
Definition valuesArray (this : Self) (conversationsArray : list Conversation) : Prop :=
  conversationsArray ≡ₚ (map_to_list (conversations this)).*2.

(** [deleteUserData(phoneNumber)]: whether a session was deleted (the value
    returned, and the condition of the call of [saveAllConversations]),
    and the instance afterwards. *)
Definition deleteUserData (phone : string) (this : Self) : bool * Self :=
  (bool_decide (is_Some (conversations this !! phone)),
   {| conversations := delete phone (conversations this) |}).

End ConversationManager.

(** ** server.js *)

Module Server.
Import GeminiColorAnalyzer ConversationManager JSString.

(** The texts the bot sends, one constructor per template of the source. *)
Inductive Message :=
| GenericHelp
| GenericError
| WelcomeMessage
| GuideMessage
| PhotoInstructions
| WaitingForSelfie
| StillAnalyzing
| ResultsOptions
| CompletePaymentReminder
| NotReadyForPhoto
| GotYourPhoto
| CouldNotAnalyze (error : string)
| IssueProcessingPhoto
| AnalysisComplete (season summary undertone : string)
| KeyColors (colors : list Color)
| BestNeutrals (colors : list Color)
| QuickRecommendations (hair : list string)
| ColorsToUseCarefully (colors : list Color)
| CompleteAnalysisBeforePDF
| CompleteStyleGuideOffer
| PaySecurelyHere (paymentLink : string)
| PaymentLinkIssue
| StartFresh
| CompleteAnalysisBeforeSharing
| ShareWithFriends (season : string)
| CheckingPaymentStatus
| PaymentConfirmed
| StyleGuideReady (pdfPhone : string) (pdfTime : Z)
| PaymentNotVerifiedYet
| PaymentCheckError
| OptionNotUnderstood.

(** [{ data, contentType }] as [aisensyAPI.downloadMedia] returns it. *)
Record MediaData := {
  data : list Byte.byte;
  contentType : string;
}.

(** [message.image]. *)
Record Image := {
  url : option string;
  mediaId : option string;
}.

(** [message.interactive]: the ids of [button_reply] and [list_reply]. *)
Record Interactive := {
  button_reply : option string;
  list_reply : option string;
}.

(** What the collaborators answer while one event is handled. *)
Record External := {
  now : Z;
  (** whether the [n]-th call of [aisensyAPI.sendMessage] is accepted *)
  sendOk : nat → bool;
  downloadMedia : Completion MediaData;
  writeFileSync : Completion unit;
  unlinkSync : Completion unit;
  apiKey : option string;
  gemini : GeminiReply;
  ordersCreate : Completion string;
  processEnv : PaymentManager.ProcessEnv;
}.

(** What the handlers share: the payment manager, the messages the gateway
    accepted (oldest first) and the number of calls of
    [aisensyAPI.sendMessage] so far. *)
Record Services := {
  paymentManager : PaymentManager.Self;
  outbox : list (string * Message);
  sendCalls : nat;
}.

(** What a handler works on: the [conversation] object it was passed, and
    the services. *)
Record World := {
  conversation : Conversation;
  services : Services;
}.

(** A handler: a state transformer that returns or throws. *)
Definition Handler (A : Type) : Type := World → Completion A * World.

#[global] Instance Handler_ret : MRet Handler :=
  λ A a w, (Returned a, w).

#[global] Instance Handler_bind : MBind Handler :=
  λ A B f m w,
    match m w with
    | (Returned a, w') => f a w'
    | (Thrown e, w') => (Thrown e, w')
    end.

Definition throw {A} (e : JSError) : Handler A := λ w, (Thrown e, w).

(** [try { body } catch (error) { handler }]. *)
Definition try_catch {A} (body : Handler A) (handler : JSError → Handler A)
  : Handler A :=
  λ w,
    match body w with
    | (Returned a, w') => (Returned a, w')
    | (Thrown e, w') => handler e w'
    end.

(** The completion of a collaborator's call, inside a handler. *)
Definition await {A} (c : Completion A) : Handler A := λ w, (c, w).

Definition getConversationObject : Handler Conversation :=
  λ w, (Returned (conversation w), w).

Definition getPaymentManager : Handler PaymentManager.Self :=
  λ w, (Returned (paymentManager (services w)), w).

(** An assignment to a property of [conversation]. *)
Definition assign (f : Conversation → Conversation) : Handler unit :=
  λ w, (Returned tt,
        {| conversation := f (conversation w); services := services w |}).

Section Handlers.
Context `{Prototype}.
Variable ext : External.

(** [aisensyAPI.sendTextMessage(to, text)]: the call either is accepted,
    and the message is out, or throws. *)
Definition sendTextMessage (to : string) (text : Message) : Handler unit :=
  λ w,
    let sv := services w in
    let n := sendCalls sv in
    if sendOk ext n then
      (Returned tt,
       {| conversation := conversation w;
          services := {| paymentManager := paymentManager sv;
                         outbox := outbox sv ++ [(to, text)];
                         sendCalls := S n |} |})
    else
      (Thrown (Error "Aisensy API error"),
       {| conversation := conversation w;
          services := {| paymentManager := paymentManager sv;
                         outbox := outbox sv;
                         sendCalls := S n |} |}).

Definition sendWelcomeMessage (phoneNumber : string) : Handler unit :=
  sendTextMessage phoneNumber WelcomeMessage.

Definition sendGuideMessage (phoneNumber : string) : Handler unit :=
  sendTextMessage phoneNumber GuideMessage.

Definition sendPhotoInstructions (phoneNumber : string) : Handler unit :=
  sendTextMessage phoneNumber PhotoInstructions.

Definition sendResultsOptions (phoneNumber : string) : Handler unit :=
  sendTextMessage phoneNumber ResultsOptions.

(** [if (list?.length) await send(...)]. *)
Definition whenNonEmpty {A} (l : list A) (h : Handler unit) : Handler unit :=
  match l with
  | [] => mret tt
  | _ :: _ => h
  end.

Definition sendAnalysisResults (phoneNumber : string) (analysis : Analysis)
  : Handler unit :=
  sendTextMessage phoneNumber
    (AnalysisComplete (season analysis) (summary analysis) (undertone analysis));;
  whenNonEmpty (key_colors analysis)
    (sendTextMessage phoneNumber (KeyColors (take 6 (key_colors analysis))));;
  whenNonEmpty (neutrals analysis)
    (sendTextMessage phoneNumber (BestNeutrals (neutrals analysis)));;
  sendTextMessage phoneNumber (QuickRecommendations (take 3 (hair_colors analysis)));;
  whenNonEmpty (colors_to_avoid analysis)
    (sendTextMessage phoneNumber
       (ColorsToUseCarefully (take 4 (colors_to_avoid analysis))));;
  sendResultsOptions phoneNumber.

(** [paymentManager.createPaymentLink(phoneNumber, analysis)], on the
    manager of the world. *)
Definition createPaymentLink (phoneNumber : string) (analysis : Analysis)
  : Handler string :=
  λ w,
    let sv := services w in
    let r := PaymentManager.createPaymentLink (processEnv ext) (now ext)
               (ordersCreate ext) phoneNumber analysis (paymentManager sv) in
    (r.1, {| conversation := conversation w;
             services := {| paymentManager := r.2;
                            outbox := outbox sv;
                            sendCalls := sendCalls sv |} |}).

Definition handlePDFRequest (phoneNumber : string) : Handler unit :=
  conversation ← getConversationObject;
  match analysis conversation with
  | None => sendTextMessage phoneNumber CompleteAnalysisBeforePDF
  | Some analysis =>
      try_catch
        (paymentLink ← createPaymentLink phoneNumber analysis;
         sendTextMessage phoneNumber CompleteStyleGuideOffer;;
         sendTextMessage phoneNumber (PaySecurelyHere paymentLink);;
         assign (set_state payment_pending);;
         assign (set_paymentLink (Some paymentLink)))
        (λ _, sendTextMessage phoneNumber PaymentLinkIssue)
  end.

Definition resetAnalysis (phoneNumber : string) : Handler unit :=
  assign (set_state guide_shown);;
  assign (set_analysis None);;
  assign (set_paymentLink None);;
  sendTextMessage phoneNumber StartFresh;;
  sendGuideMessage phoneNumber.

Definition shareResults (phoneNumber : string) : Handler unit :=
  conversation ← getConversationObject;
  match analysis conversation with
  | None => sendTextMessage phoneNumber CompleteAnalysisBeforeSharing
  | Some analysis => sendTextMessage phoneNumber (ShareWithFriends (season analysis))
  end.

(** [checkPaymentStatus(phoneNumber, conversation)]; [generatePDF] only
    builds the URL from the phone number and [Date.now()]. *)
Definition checkPaymentStatus (phoneNumber : string) : Handler unit :=
  sendTextMessage phoneNumber CheckingPaymentStatus;;
  try_catch
    (manager ← getPaymentManager;
     match PaymentManager.getPaymentByPhoneNumber phoneNumber manager with
     | Some paymentData =>
         if bool_decide (PaymentManager.status paymentData = PaymentManager.completed)
         then
           sendTextMessage phoneNumber PaymentConfirmed;;
           sendTextMessage phoneNumber (StyleGuideReady phoneNumber (now ext));;
           assign (set_state completed);;
           assign (set_pdfGenerated true)
         else sendTextMessage phoneNumber PaymentNotVerifiedYet
     | None => sendTextMessage phoneNumber PaymentNotVerifiedYet
     end)
    (λ _, sendTextMessage phoneNumber PaymentCheckError).

(** [handleTextMessage(phoneNumber, text, conversation)]. *)
Definition handleTextMessage (phoneNumber : string) (text : string)
  : Handler unit :=
  let lowerText := trim (toLowerCase text) in
  conversation ← getConversationObject;
  match state conversation with
  | initial | welcome =>
      if includes lowerText "start" || includes lowerText "begin" ||
         includes lowerText "hi" || includes lowerText "hello"
      then sendWelcomeMessage phoneNumber;; assign (set_state guide_shown)
      else sendWelcomeMessage phoneNumber;; assign (set_state guide_shown)
  | guide_shown =>
      if includes lowerText "ready" || includes lowerText "yes" ||
         includes lowerText "continue" || String.eqb lowerText "1"
      then sendPhotoInstructions phoneNumber;; assign (set_state waiting_for_photo)
      else sendGuideMessage phoneNumber
  | waiting_for_photo => sendTextMessage phoneNumber WaitingForSelfie
  | analyzing => sendTextMessage phoneNumber StillAnalyzing
  | results_shown =>
      if includes lowerText "pdf" || includes lowerText "guide" ||
         includes lowerText "buy" || String.eqb lowerText "1"
      then handlePDFRequest phoneNumber
      else if includes lowerText "new" || includes lowerText "another" ||
              includes lowerText "again" || String.eqb lowerText "2"
      then resetAnalysis phoneNumber
      else if includes lowerText "share" || String.eqb lowerText "3"
      then shareResults phoneNumber
      else sendResultsOptions phoneNumber
  | payment_pending =>
      if includes lowerText "paid" || includes lowerText "payment" ||
         includes lowerText "done"
      then checkPaymentStatus phoneNumber
      else sendTextMessage phoneNumber CompletePaymentReminder
  | _ => sendWelcomeMessage phoneNumber;; assign (set_state guide_shown)
  end.

(** The [try] block of [handleImageMessage]. *)
Definition processImage (phoneNumber : string) (image : Image) : Handler unit :=
  sendTextMessage phoneNumber GotYourPhoto;;
  assign (set_state analyzing);;
  mediaData ← (if truthy (url image)
               then await (downloadMedia ext)
               else throw (Error "No image URL provided"));
  await (writeFileSync ext);;
  let analysisResult :=
    analyzeFromBuffer (apiKey ext) (gemini ext) (data mediaData) (contentType mediaData) in
  await (unlinkSync ext);;
  match analysisResult with
  | AnalysisSuccess analysis =>
      assign (set_analysis (Some analysis));;
      assign (set_state results_shown);;
      sendAnalysisResults phoneNumber analysis
  | AnalysisFailure error =>
      assign (set_state waiting_for_photo);;
      sendTextMessage phoneNumber (CouldNotAnalyze error)
  end.

(** [handleImageMessage(phoneNumber, image, conversation)]. *)
Definition handleImageMessage (phoneNumber : string) (image : Image)
  : Handler unit :=
  conversation ← getConversationObject;
  if negb (bool_decide (state conversation = waiting_for_photo)) then
    sendTextMessage phoneNumber NotReadyForPhoto
  else
    try_catch (processImage phoneNumber image)
      (λ _, assign (set_state waiting_for_photo);;
            sendTextMessage phoneNumber IssueProcessingPhoto).

(** [interactive.button_reply?.id || interactive.list_reply?.id]. *)
Definition buttonId (interactive : Interactive) : option string :=
  if truthy (button_reply interactive) then button_reply interactive
  else list_reply interactive.

(** [handleInteractiveMessage(phoneNumber, interactive, conversation)];
    reading [button_reply] of an undefined or [null] [interactive] throws. *)
Definition handleInteractiveMessage (phoneNumber : string)
    (interactive : option Interactive) : Handler unit :=
  match interactive with
  | None => throw (Error "Cannot read properties of undefined")
  | Some interactive =>
      let case (s : string) := bool_decide (buttonId interactive = Some s) in
      if case "start_analysis" || case "1" then
        sendPhotoInstructions phoneNumber;; assign (set_state waiting_for_photo)
      else if case "get_pdf" || case "2" then handlePDFRequest phoneNumber
      else if case "new_analysis" || case "3" then resetAnalysis phoneNumber
      else if case "share_results" || case "4" then shareResults phoneNumber
      else sendTextMessage phoneNumber OptionNotUnderstood
  end.

(** [message], as the webhook route builds it. [timestamp] is the date it
    denotes ([None]: not a date). [text] is [null] or [{ body }]; the body
    is [Some s] when it is the string [s] and [None] when it is anything
    else, that is undefined, [null], or a number, a boolean, an array or an
    object of the parsed JSON: none of these has a method [toLowerCase].
    [interactive] is [None] when it is undefined or [null]; a reply id that
    is not a string equals none of the ids the handler tests. *)
Record IncomingMessage := {
  from : string;
  timestamp : option Z;
  type : string;
  text : option (option string);
  image : option Image;
  interactive : option Interactive;
}.

(** The server: the conversation manager and the services. *)
Record ServerState := {
  conversationManager : ConversationManager.Self;
  shared : Services;
}.

(** The branch on [message.type] inside [handleMessage]. On a body that
    is not a string, [text.toLowerCase()], the first statement of
    [handleTextMessage], throws a [TypeError]; the model has one error for
    all of them, which no code reads. *)
Definition dispatch (message : IncomingMessage) : Handler unit :=
  let phoneNumber := from message in
  match String.eqb (type message) "text", text message with
  | true, Some body =>
      match body with
      | Some text => handleTextMessage phoneNumber text
      | None => throw (Error "Cannot read properties of undefined")
      end
  | _, _ =>
      match String.eqb (type message) "image", image message with
      | true, Some image => handleImageMessage phoneNumber image
      | _, _ =>
          if String.eqb (type message) "interactive"
          then handleInteractiveMessage phoneNumber (interactive message)
          else sendTextMessage phoneNumber GenericHelp
      end
  end.

(** [handleMessage(message, contact)]; [contactName] is
    [contact?.profile?.name]. The [conversation] object is the one stored
    in the map under [phoneNumber], so what a handler assigned to it is in
    the map whether or not the handler throws. *)
Definition handleMessage (message : IncomingMessage) (contactName : option string)
    (s : ServerState) : Completion unit * ServerState :=
  let phoneNumber := from message in
  let '(conversation, manager) :=
    match getConversation phoneNumber (conversationManager s) with
    | Some conversation => (conversation, conversationManager s)
    | None =>
        createConversation (now ext) phoneNumber
          (Some (if truthy contactName then default "Friend" contactName else "Friend"))
          (conversationManager s)
    end in
  let conversation := set_lastActive (timestamp message) conversation in
  let '(r, w) :=
    dispatch message {| conversation := conversation; services := shared s |} in
  let manager :=
    {| conversations := <[phoneNumber := Server.conversation w]> (conversations manager) |} in
  match r with
  | Returned _ =>
      (Returned tt,
       {| conversationManager :=
            saveConversation (now ext) phoneNumber (Server.conversation w) manager;
          shared := services w |})
  | Thrown _ =>
      let '(r', w') := sendTextMessage phoneNumber GenericError w in
      (r', {| conversationManager := manager; shared := services w' |})
  end.

End Handlers.

(** What happens to the server: a message of a user comes in, or Razorpay
    delivers a webhook to the payment manager. *)
Inductive Event `{PaymentManager.NodeRuntime} :=
| MessageIn (ext : External) (message : IncomingMessage) (contactName : option string)
| RazorpayWebhook (env : PaymentManager.ProcessEnv) (now : Z)
    (body : PaymentManager.WebhookPayload) (signature : string).

Definition step `{PaymentManager.NodeRuntime} `{Prototype} (s : ServerState)
    (ev : Event) : ServerState :=
  match ev with
  | MessageIn ext message contactName => (handleMessage ext message contactName s).2
  | RazorpayWebhook env now body signature =>
      let sv := shared s in
      let r := PaymentManager.handleWebhook env now body signature (paymentManager sv) in
      {| conversationManager := conversationManager s;
         shared := {| paymentManager := r.2;
                      outbox := outbox sv;
                      sendCalls := sendCalls sv |} |}
  end.

(** The states of the specification's enumeration. *)
Definition enumeration : list State :=
  [initial; guide_shown; waiting_for_photo; analyzing; results_shown;
   payment_pending; completed].

(** No test of the branch of [handleTextMessage] for state [s] recognises
    [lowerText]: the text falls to the last [else] of the branch (a state
    whose branch tests nothing recognises no text). *)
Definition unknownIntent (s : State) (lowerText : string) : bool :=
  match s with
  | initial | welcome =>
      negb (includes lowerText "start" || includes lowerText "begin" ||
            includes lowerText "hi" || includes lowerText "hello")
  | guide_shown =>
      negb (includes lowerText "ready" || includes lowerText "yes" ||
            includes lowerText "continue" || String.eqb lowerText "1")
  | results_shown =>
      negb (includes lowerText "pdf" || includes lowerText "guide" ||
            includes lowerText "buy" || String.eqb lowerText "1") &&
      negb (includes lowerText "new" || includes lowerText "another" ||
            includes lowerText "again" || String.eqb lowerText "2") &&
      negb (includes lowerText "share" || String.eqb lowerText "3")
  | payment_pending =>
      negb (includes lowerText "paid" || includes lowerText "payment" ||
            includes lowerText "done")
  | _ => true
  end.

(** The analysis is set only in the states from [results_shown] on. *)
Definition analysisOnlyAfterResults (c : Conversation) : bool :=
  match analysis c with
  | None => true
  | Some _ =>
      match state c with
      | results_shown | payment_pending | completed => true
      | _ => false
      end
  end.

(** [analyzeFromBuffer] answers a failure on whatever the download yields. *)
Definition analysisFails (ext : External) : Prop :=
  ∀ mediaData, downloadMedia ext = Returned mediaData →
    success (analyzeFromBuffer (apiKey ext) (gemini ext)
               (data mediaData) (contentType mediaData)) = false.

(** The two events that take a session with an analysis back to an earlier
    state and keep the analysis: a text in state [completed], which falls
    to the [default] of the [switch], and the interactive option
    [start_analysis] (or [1]). *)
Definition goesBackWithAnalysis (c : Conversation) (message : IncomingMessage)
  : bool :=
  bool_decide (is_Some (analysis c)) &&
  match String.eqb (type message) "text", text message with
  | true, Some _ => bool_decide (state c = completed)
  | _, _ =>
      match String.eqb (type message) "image", image message with
      | true, Some _ => false
      | _, _ =>
          String.eqb (type message) "interactive" &&
          match interactive message with
          | Some interactive =>
              bool_decide (buttonId interactive = Some "start_analysis") ||
              bool_decide (buttonId interactive = Some "1")
          | None => false
          end
      end
  end.

(** The server at start-up, with no conversation on disk. *)
Definition boot : ServerState :=
  {| conversationManager := {| conversations := ∅ |};
     shared := {| paymentManager := PaymentManager.constructor;
                  outbox := []; sendCalls := 0 |} |}.

Definition run `{PaymentManager.NodeRuntime} `{Prototype} (events : list Event)
  : ServerState :=
  foldl step boot events.

(** The first step of [handleMessage]: the session of the sender, found
    or created, and the manager that holds it. *)
Definition openSession (ext : External) (message : IncomingMessage)
    (contactName : option string) (s : ServerState)
  : Conversation * ConversationManager.Self :=
  match getConversation (from message) (conversationManager s) with
  | Some conversation => (conversation, conversationManager s)
  | None =>
      createConversation (now ext) (from message)
        (Some (if truthy contactName then default "Friend" contactName else "Friend"))
        (conversationManager s)
  end.

(** The world [handleMessage] hands to the handlers. *)
Definition handlerWorld (ext : External) (message : IncomingMessage)
    (contactName : option string) (s : ServerState) : World :=
  {| conversation :=
       set_lastActive (timestamp message) (openSession ext message contactName s).1;
     services := shared s |}.

(** The messages no branch of [handleMessage] handles without throwing:
    a text whose body is not a string (undefined, [null], a number, a
    boolean, an array or an object), and an interactive message whose
    [interactive] part is undefined or [null]. *)
Definition unhandled (message : IncomingMessage) : bool :=
  match String.eqb (type message) "text", text message with
  | true, Some body => negb (bool_decide (is_Some body))
  | _, _ =>
      match String.eqb (type message) "image", image message with
      | true, Some _ => false
      | _, _ =>
          String.eqb (type message) "interactive" &&
          negb (bool_decide (is_Some (interactive message)))
      end
  end.

End Server.

(** ** server.js, the route [POST /webhook/aisensy] *)

Module AisensyWebhook.
Import GeminiColorAnalyzer.

(** The properties the route reads of [body.messages[0]], or of [body]
    itself in the single-message format. A property is absent or a
    string; [timestamp] is [None] when it is absent or falsy, and else the
    date it denotes ([Some None]: not a date). *)
Record MsgData := {
  from : option string;
  sender : option string;
  phone : option string;
  timestamp : option (option Z);
  type : option string;
  messageType : option string;
  text : option string;
  message : option string;
  mediaUrl : option string;
  media_url : option string;
  mediaId : option string;
  senderName : option string;
  name : option string;
}.

(** [req.body]: its own properties, [body.event], and [body.messages],
    absent or an array of objects. *)
Record Body := {
  top : MsgData;
  event : option string;
  messages : option (list MsgData);
}.

(** [a || b]. *)
Definition orElse (a b : option string) : option string :=
  if truthy a then a else b.

(** [a || 'literal']. *)
Definition orLiteral (a : option string) (literal : string) : string :=
  if truthy a then default literal a else literal.

(** What the route does with a body: nothing, or it throws while it reads
    [body.messages[0]], or it builds [message] and [contact] and calls
    [handleMessage]. [Anonymous]: the message it builds has an undefined
    [from]; that call is not followed here. *)
Inductive Normalised :=
| NotAMessage
| Malformed
| Anonymous
| Incoming (message : Server.IncomingMessage) (contactName : option string).

(** The two object literals [message = { ... }] and [contact = { ... }];
    [single] tells the single-message format, whose tests for [text] and
    [image] also look at [messageType]. *)
Definition build (now : Z) (single : bool) (msgData : MsgData) : Normalised :=
  let declares (t : string) :=
    bool_decide (type msgData = Some t) ||
    (single && bool_decide (messageType msgData = Some t)) in
  match orElse (orElse (from msgData) (sender msgData)) (phone msgData) with
  | None => Anonymous
  | Some sender =>
      Incoming
        {| Server.from := sender;
           Server.timestamp :=
             match timestamp msgData with Some date => date | None => Some now end;
           Server.type := orLiteral (orElse (type msgData) (messageType msgData)) "text";
           Server.text :=
             if declares "text"
             then Some (orElse (text msgData) (message msgData))
             else None;
           Server.image :=
             if declares "image"
             then Some {| Server.url := orElse (mediaUrl msgData) (media_url msgData);
                          Server.mediaId := mediaId msgData |}
             else None;
           Server.interactive := None |}
        (Some (orLiteral (orElse (senderName msgData) (name msgData)) "User"))
  end.

(** The route up to the call of [handleMessage]. *)
Definition normalise (now : Z) (body : Body) : Normalised :=
  if bool_decide (type (top body) = Some "message") ||
     bool_decide (event body = Some "message") ||
     bool_decide (is_Some (messages body))
  then
    match messages body with
    | Some [] => Malformed
    | Some (msgData :: _) => build now false msgData
    | None => build now true (top body)
    end
  else NotAMessage.

(** The route: the status it answers and the server afterwards; [None]
    for a message without sender. *)
Definition post `{JSString.Prototype} (ext : Server.External) (body : Body)
    (s : Server.ServerState) : option (Z * Server.ServerState) :=
  match normalise (Server.now ext) body with
  | NotAMessage => Some (200, s)
  | Malformed => Some (500, s)
  | Anonymous => None
  | Incoming message contactName =>
      let r := Server.handleMessage ext message contactName s in
      Some (match r.1 with Returned _ => 200 | Thrown _ => 500 end, r.2)
  end.

End AisensyWebhook.

(** ** Concrete data for the examples *)

Module Fixtures.
Import GeminiColorAnalyzer.

(** A runtime whose signature is the key followed by the data, and whose
    serialisation of a webhook body is its event name and order id. *)
Definition runtime : PaymentManager.NodeRuntime :=
  {| PaymentManager.hmacSha256Hex key data := key +:+ "#" +:+ data;
     PaymentManager.JSON_stringify body :=
       PaymentManager.event body +:+ "/" +:+
       match PaymentManager.payload body with
       | Some entities =>
           match PaymentManager.payment entities with
           | Some e => PaymentManager.order_id e
           | None => EmptyString
           end
       | None => EmptyString
       end |}.

#[local] Existing Instance runtime.

(** The string methods on ASCII text; the texts of the examples are ASCII. *)
Definition asciiText : JSString.Prototype :=
  {| JSString.toLowerCase := JSString.toLowerCaseAscii;
     JSString.trim := JSString.trimAscii |}.

#[local] Existing Instance asciiText.

(** Asia/Kolkata: five and a half hours ahead of UTC, all year. *)
Definition kolkata : JSDate.TimeZone :=
  {| JSDate.LocalTZA _ _ := 19800000 |}.

#[local] Existing Instance kolkata.

Definition env : PaymentManager.ProcessEnv :=
  {| PaymentManager.RAZORPAY_KEY_SECRET := Some "key_secret";
     PaymentManager.RAZORPAY_WEBHOOK_SECRET := Some "whsec";
     PaymentManager.BASE_URL := Some "https://bot.example" |}.

Definition softAutumn : Analysis :=
  {| season := "Soft Autumn";
     undertone := "Warm with golden hues";
     summary := "Muted and warm.";
     key_colors := [ {| name := "Sage"; hex := "#9CAF88" |} ];
     neutrals := [ {| name := "Taupe"; hex := "#8B7D6B" |} ];
     accent_colors := [];
     hair_colors := ["Chestnut"];
     colors_to_avoid := [ {| name := "Neon Pink"; hex := "#FF10F0" |} ] |}.

Definition phone : string := "919812345678".

(** The order [order_1] of that phone, in the given status. *)
Definition order1 (st : PaymentManager.PaymentStatus) : PaymentManager.PaymentData :=
  {| PaymentManager.orderId := "order_1";
     PaymentManager.phoneNumber := phone;
     PaymentManager.amount := 69900;
     PaymentManager.currency := "INR";
     PaymentManager.status := st;
     PaymentManager.createdAt := 1000;
     PaymentManager.analysis := softAutumn;
     PaymentManager.paymentId := None;
     PaymentManager.completedAt := None;
     PaymentManager.razorpayPayment := None;
     PaymentManager.failedAt := None;
     PaymentManager.failureReason := None |}.

Definition managerWith (st : PaymentManager.PaymentStatus) : PaymentManager.Self :=
  {| PaymentManager.pendingPayments := [("order_1", order1 st)];
     PaymentManager.postPaymentActions := [] |}.

Definition pay1 (st : string) : PaymentManager.PaymentEntity :=
  {| PaymentManager.id := "pay_1";
     PaymentManager.order_id := "order_1";
     PaymentManager.entity_status := st;
     PaymentManager.error_reason := None |}.

Definition webhook (ev : string) (e : PaymentManager.PaymentEntity)
  : PaymentManager.WebhookPayload :=
  {| PaymentManager.event := ev;
     PaymentManager.payload :=
       Some {| PaymentManager.payment := Some e; PaymentManager.order := None |} |}.

Definition captured1 : PaymentManager.WebhookPayload :=
  webhook "payment.captured" (pay1 "captured").

Definition failed1 : PaymentManager.WebhookPayload :=
  webhook "payment.failed" (pay1 "failed").

(** A session of that phone that has shown its results. *)
Definition analysed : ConversationManager.Conversation :=
  {| ConversationManager.phoneNumber := phone;
     ConversationManager.state := ConversationManager.results_shown;
     ConversationManager.createdAt := 1000;
     ConversationManager.lastActive := Some 2000;
     ConversationManager.messageCount := 3;
     ConversationManager.userInfo := {| ConversationManager.name := "Mina" |};
     ConversationManager.analysis := Some softAutumn;
     ConversationManager.paymentInfo := None;
     ConversationManager.pdfGenerated := false;
     ConversationManager.paymentLink := None |}.

(** A session of another phone that only got the guide, last active at 2000. *)
Definition idle : ConversationManager.Conversation :=
  {| ConversationManager.phoneNumber := "15550100";
     ConversationManager.state := ConversationManager.guide_shown;
     ConversationManager.createdAt := 1000;
     ConversationManager.lastActive := Some 2000;
     ConversationManager.messageCount := 1;
     ConversationManager.userInfo := {| ConversationManager.name := "Friend" |};
     ConversationManager.analysis := None;
     ConversationManager.paymentInfo := None;
     ConversationManager.pdfGenerated := false;
     ConversationManager.paymentLink := None |}.

(** Forty days, in milliseconds, after time 0. *)
Definition fortyDays : Z := 40 * 24 * 60 * 60 * 1000.

(** The collaborators on a good day: every message is accepted, the image
    downloads, Gemini answers [softAutumn], Razorpay mints [order_1]. *)
Definition goodDay : Server.External :=
  {| Server.now := 100;
     Server.sendOk := λ _, true;
     Server.downloadMedia :=
       Returned {| Server.data := []; Server.contentType := "image/jpeg" |};
     Server.writeFileSync := Returned tt;
     Server.unlinkSync := Returned tt;
     Server.apiKey := Some "gemini-key";
     Server.gemini := GeminiAnalysis softAutumn;
     Server.ordersCreate := Returned "order_1";
     Server.processEnv := env |}.

(** The error axios throws when the request runs into its timeout. *)
Definition axiosTimeout : JSError :=
  {| code := Some "ECONNABORTED"; responseStatus := None;
     message := "timeout of 60000ms exceeded" |}.

(** The same day, except that the Gemini request times out. *)
Definition geminiTimesOut : Server.External :=
  {| Server.now := 100;
     Server.sendOk := λ _, true;
     Server.downloadMedia :=
       Returned {| Server.data := []; Server.contentType := "image/jpeg" |};
     Server.writeFileSync := Returned tt;
     Server.unlinkSync := Returned tt;
     Server.apiKey := Some "gemini-key";
     Server.gemini := GeminiThrows axiosTimeout;
     Server.ordersCreate := Returned "order_1";
     Server.processEnv := env |}.

Definition textMessage (body : string) : Server.IncomingMessage :=
  {| Server.from := phone; Server.timestamp := Some 100;
     Server.type := "text"; Server.text := Some (Some body);
     Server.image := None; Server.interactive := None |}.

Definition selfie : Server.Image :=
  {| Server.url := Some "https://cdn.example/selfie.jpg"; Server.mediaId := None |}.

Definition imageMessage : Server.IncomingMessage :=
  {| Server.from := phone; Server.timestamp := Some 100;
     Server.type := "image"; Server.text := None;
     Server.image := Some selfie; Server.interactive := None |}.

(** A handler's world around a session of the phone in a given state. *)
Definition worldIn (st : ConversationManager.State) (a : option Analysis)
  : Server.World :=
  {| Server.conversation :=
       {| ConversationManager.phoneNumber := phone;
          ConversationManager.state := st;
          ConversationManager.createdAt := 1000;
          ConversationManager.lastActive := Some 2000;
          ConversationManager.messageCount := 3;
          ConversationManager.userInfo := {| ConversationManager.name := "Mina" |};
          ConversationManager.analysis := a;
          ConversationManager.paymentInfo := None;
          ConversationManager.pdfGenerated := false;
          ConversationManager.paymentLink := None |};
     Server.services :=
       {| Server.paymentManager := PaymentManager.constructor;
          Server.outbox := []; Server.sendCalls := 0 |} |}.

(** A user goes from the first greeting to the shown results ... *)
Definition toResults : list Server.Event :=
  [ Server.MessageIn goodDay (textMessage "hi") (Some "Mina");
    Server.MessageIn goodDay (textMessage "yes") (Some "Mina");
    Server.MessageIn goodDay imageMessage (Some "Mina") ].

(** ... buys the guide, pays, and asks for the payment to be checked. *)
Definition toCompleted : list Server.Event :=
  toResults ++
  [ Server.MessageIn goodDay (textMessage "buy") (Some "Mina");
    Server.RazorpayWebhook env 200 captured1 "whsec#payment.captured/order_1";
    Server.MessageIn goodDay (textMessage "paid") (Some "Mina") ].

(** The same good day, on which Razorpay mints [order_2]. *)
Definition secondOrder : Server.External :=
  {| Server.now := 300;
     Server.sendOk := λ _, true;
     Server.downloadMedia :=
       Returned {| Server.data := []; Server.contentType := "image/jpeg" |};
     Server.writeFileSync := Returned tt;
     Server.unlinkSync := Returned tt;
     Server.apiKey := Some "gemini-key";
     Server.gemini := GeminiAnalysis softAutumn;
     Server.ordersCreate := Returned "order_2";
     Server.processEnv := env |}.

(** The world of a session with shown results whose phone has paid
    [order_1] before. *)
Definition paidBefore : Server.World :=
  {| Server.conversation := analysed;
     Server.services :=
       {| Server.paymentManager := managerWith PaymentManager.completed;
          Server.outbox := []; Server.sendCalls := 0 |} |}.

(** The two sessions [analysed] and [idle], each under its phone number. *)
Definition twoSessions : ConversationManager.Self :=
  {| ConversationManager.conversations :=
       <[phone := analysed]> (<["15550100" := idle]> ∅) |}.

(** An object of a webhook body with the given [from], [type],
    [messageType] and [text], and nothing else. *)
Definition msgData (from type messageType text : option string)
  : AisensyWebhook.MsgData :=
  {| AisensyWebhook.from := from;
     AisensyWebhook.sender := None;
     AisensyWebhook.phone := None;
     AisensyWebhook.timestamp := None;
     AisensyWebhook.type := type;
     AisensyWebhook.messageType := messageType;
     AisensyWebhook.text := text;
     AisensyWebhook.message := None;
     AisensyWebhook.mediaUrl := None;
     AisensyWebhook.media_url := None;
     AisensyWebhook.mediaId := None;
     AisensyWebhook.senderName := None;
     AisensyWebhook.name := None |}.

(** [{ type: 'message', messageType: 'text', from, text: 'hi' }]. *)
Definition typeMessage : AisensyWebhook.Body :=
  {| AisensyWebhook.top := msgData (Some phone) (Some "message") (Some "text") (Some "hi");
     AisensyWebhook.event := None;
     AisensyWebhook.messages := None |}.

(** [{ messages: [{ from, type: 'interactive' }] }]. *)
Definition interactiveReply : AisensyWebhook.Body :=
  {| AisensyWebhook.top := msgData None None None None;
     AisensyWebhook.event := None;
     AisensyWebhook.messages :=
       Some [msgData (Some phone) (Some "interactive") None None] |}.

End Fixtures.

(** * Properties *)

(** ** The insertion-ordered map *)

Section JSMapFacts.
Context {V : Type}.
Implicit Types (m : JSMap.t V) (k : string) (v : V).

Lemma jsmap_get_set_eq m k v : JSMap.get (JSMap.set m k v) k = Some v.
Proof.
  induction m as [|[k' v'] m IH]; simpl.
  - by rewrite String.eqb_refl.
  - destruct (String.eqb k k') eqn:E; simpl.
    + by rewrite String.eqb_refl.
    + by rewrite E.
Qed.

Lemma jsmap_get_set_ne m k k' v :
  k ≠ k' → JSMap.get (JSMap.set m k v) k' = JSMap.get m k'.
Proof.
  intros Hne. induction m as [|[k0 v0] m IH]; simpl.
  - destruct (String.eqb_spec k' k); [congruence | done].
  - destruct (String.eqb_spec k k0) as [->|Hk]; simpl.
    + destruct (String.eqb_spec k' k0); [congruence | done].
    + destruct (String.eqb_spec k' k0); [done | apply IH].
Qed.

Lemma jsmap_set_set m k v v' :
  JSMap.set (JSMap.set m k v) k v' = JSMap.set m k v'.
Proof.
  induction m as [|[k0 v0] m IH]; simpl.
  - by rewrite String.eqb_refl.
  - destruct (String.eqb k k0) eqn:E; simpl.
    + by rewrite String.eqb_refl.
    + by rewrite E, IH.
Qed.

End JSMapFacts.

(** ** Dates *)

Section JSDateFacts.
Import JSDate.
Context `{TimeZone}.

(** When the offset of the zone at the local time [days] days back is the
    offset at [now], [setDate(getDate() - days)] goes back by [days] times
    twenty-four hours; across a change of the clock it is off by the
    difference of the two offsets. *)
Lemma daysAgo_offsets days now :
  daysAgo days now =
    now - days * msPerDay
    + (LocalTZA now true - LocalTZA (LocalTime now - days * msPerDay) false).
Proof. unfold daysAgo, UTC. unfold LocalTime at 1. lia. Qed.

Lemma daysAgo_same_offset days now :
  LocalTZA (LocalTime now - days * msPerDay) false = LocalTZA now true →
  daysAgo days now = now - days * msPerDay.
Proof. intros Hsame. rewrite daysAgo_offsets, Hsame. lia. Qed.

End JSDateFacts.

(** ** The payment manager *)

Section PaymentManagerFacts.
Import PaymentManager.
Context `{NodeRuntime}.
Context `{JSString.Prototype}.
Implicit Types (this : Self) (e : PaymentEntity) (pd : PaymentData).

Lemma handleWebhook_invalid env now body signature this :
  signature ≠ hmacSha256Hex (webhookSecret env) (JSON_stringify body) →
  handleWebhook env now body signature this = (WebhookFailure "Invalid signature", this).
Proof.
  intros Hsig. unfold handleWebhook.
  destruct (String.eqb_spec signature
              (hmacSha256Hex (webhookSecret env) (JSON_stringify body))); [done|].
  reflexivity.
Qed.

Lemma handleWebhook_captured env now body e this :
  carries body "payment.captured" e →
  handleWebhook env now body
    (hmacSha256Hex (webhookSecret env) (JSON_stringify body)) this
  = (WebhookSuccess, updatePaymentFromWebhook now (order_id e) e this).
Proof.
  intros (Hev & entities & Hp & He). unfold handleWebhook.
  by rewrite String.eqb_refl, Hp, Hev, He.
Qed.

Lemma updatePaymentFromWebhook_stored now k e this pd :
  JSMap.get (pendingPayments this) k = Some pd →
  updatePaymentFromWebhook now k e this =
    {| pendingPayments :=
         JSMap.set (pendingPayments this) k (markCompleted now (id e) e pd);
       postPaymentActions := postPaymentActions this ++ [phoneNumber pd] |}.
Proof. intros Hget. unfold updatePaymentFromWebhook. by rewrite Hget. Qed.

(** C9. For an order id that is not in [pendingPayments], neither
    [updatePaymentFromWebhook] nor [markPaymentFailed] does anything: the
    instance (the map of orders and the trace of post-payment actions) is
    the one before the call. *)
Theorem webhook_handlers_ignore_unknown_order now k e this :
  JSMap.get (pendingPayments this) k = None →
  updatePaymentFromWebhook now k e this = this ∧
  markPaymentFailed now k e this = this.
Proof.
  intros Hget. unfold updatePaymentFromWebhook, markPaymentFailed.
  by rewrite Hget.
Qed.

(** C10. When the key secret is set, the signature is the HMAC of
    [orderId|paymentId], Razorpay reports the payment as captured and the
    order id is not in [pendingPayments], [verifyPayment] answers success
    with an undefined [paymentData] and leaves the instance as it was. *)
Theorem verifyPayment_succeeds_without_record
    env now key payment oid pid signature this :
  RAZORPAY_KEY_SECRET env = Some key →
  signature = hmacSha256Hex key (oid +:+ "|" +:+ pid) →
  entity_status payment = "captured" →
  JSMap.get (pendingPayments this) oid = None →
  verifyPayment env now (Returned payment) oid pid signature this
  = (VerifySuccess None payment, this).
Proof.
  intros Hkey -> Hst Hget. unfold verifyPayment.
  by rewrite Hkey, String.eqb_refl, Hst, Hget.
Qed.

(** C3. A webhook whose signature is not the HMAC of the serialised body
    under the webhook secret is answered with a failure, and the payment
    manager is left as it was; delivered to the server, it changes neither
    the orders nor the sessions. *)
Theorem handleWebhook_invalid_signature_fails_closed env now body signature :
  signature ≠ hmacSha256Hex (webhookSecret env) (JSON_stringify body) →
  (∀ this, ∃ error,
     handleWebhook env now body signature this = (WebhookFailure error, this)) ∧
  (∀ s, Server.step s (Server.RazorpayWebhook env now body signature) = s).
Proof.
  intros Hsig. split.
  - intros this. eexists. by apply handleWebhook_invalid.
  - intros [cm [pm ob n]]. simpl. by rewrite handleWebhook_invalid.
Qed.

(** C1, as the code has it. For a stored order, each delivery of a signed
    [payment.captured] webhook completes the order again: after the first
    and after the second delivery the status is [completed], the record is
    rewritten with the time of the latest delivery, and
    [triggerPostPaymentActions] has run once per delivery. *)
Theorem captured_webhook_twice env now1 now2 body e this pd :
  carries body "payment.captured" e →
  JSMap.get (pendingPayments this) (order_id e) = Some pd →
  let s1 := deliver env this (now1, body) in
  let s2 := deliver env s1 (now2, body) in
  statusOf s1 (order_id e) = Some completed ∧
  statusOf s2 (order_id e) = Some completed ∧
  JSMap.get (pendingPayments s2) (order_id e) = Some (markCompleted now2 (id e) e pd) ∧
  postPaymentActions s1 = postPaymentActions this ++ [phoneNumber pd] ∧
  postPaymentActions s2 = postPaymentActions this ++ [phoneNumber pd; phoneNumber pd].
Proof.
  intros Hbody Hget s1 s2. subst s1 s2. unfold deliver, statusOf. simpl.
  rewrite (handleWebhook_captured _ _ _ _ _ Hbody). simpl.
  rewrite (handleWebhook_captured _ _ _ _ _ Hbody). simpl.
  rewrite (updatePaymentFromWebhook_stored _ _ _ _ _ Hget).
  erewrite updatePaymentFromWebhook_stored by (simpl; apply jsmap_get_set_eq).
  simpl. rewrite jsmap_set_set, !jsmap_get_set_eq, <- app_assoc.
  by repeat split.
Qed.

(** One gateway event moves the status of a stored order to the reported one. *)
Lemma reconcile_status env this ev k pd :
  JSMap.get (pendingPayments this) k = Some pd →
  ∃ pd', JSMap.get (pendingPayments (reconcile env this ev)) k = Some pd' ∧
         status pd' = lastReported k [ev] (status pd).
Proof.
  intros Hget. destruct ev as [now body|now k0 order payments].
  - unfold reconcile, deliver, handleWebhook, lastReported, reported. simpl.
    rewrite String.eqb_refl. simpl.
    destruct (payload body) as [entities|]; simpl; [|by eauto].
    destruct (payment entities) as [e|]; simpl.
    2:{ repeat case_match; simpl; eauto. }
    destruct (String.eqb (event body) "payment.captured").
    + simpl. unfold updatePaymentFromWebhook.
      destruct (String.eqb_spec (order_id e) k) as [->|Hne].
      * rewrite Hget. simpl. rewrite jsmap_get_set_eq. eauto.
      * destruct (JSMap.get (pendingPayments this) (order_id e)); simpl; [|by eauto].
        rewrite jsmap_get_set_ne by done. eauto.
    + destruct (String.eqb (event body) "payment.failed"); simpl; [|by eauto].
      unfold markPaymentFailed.
      destruct (String.eqb_spec (order_id e) k) as [->|Hne].
      * rewrite Hget. simpl. rewrite jsmap_get_set_eq. eauto.
      * destruct (JSMap.get (pendingPayments this) (order_id e)); simpl; [|by eauto].
        rewrite jsmap_get_set_ne by done. eauto.
  - unfold reconcile, lastReported, reported. simpl.
    destruct (String.eqb_spec k0 k) as [->|Hne].
    + unfold checkPaymentStatus. rewrite Hget.
      case_bool_decide as Hdone; simpl.
      { exists pd. split; [done|]. repeat case_match; simplify_eq/=; done. }
      destruct order as [order_status|]; simpl; [|by eauto].
      destruct (String.eqb order_status "paid"); simpl.
      2:{ exists pd. split; [done|]. by repeat case_match. }
      destruct payments as [[|payment items]|]; simpl; [by eauto| |by eauto].
      destruct (String.eqb (entity_status payment) "captured"); simpl; [|by eauto].
      rewrite jsmap_get_set_eq, String.eqb_refl. eauto.
    + exists pd. split.
      * unfold checkPaymentStatus.
        repeat case_match; simpl; try done.
        by rewrite jsmap_get_set_ne.
      * apply String.eqb_neq in Hne.
        repeat case_match; simplify_eq/=; try done; congruence.
Qed.

(** C2, as the code has it. A stored order stays stored, and after any
    sequence of signed webhooks and polls its status is the one the last
    report for that order gives, whatever the status was before: a
    [payment.captured] webhook and a poll that finds the order paid and
    captured give [completed], a [payment.failed] webhook gives [failed];
    it is the initial status when no event reports on the order. *)
Theorem status_is_last_reported env events this k pd :
  JSMap.get (pendingPayments this) k = Some pd →
  statusOf (reconcileAll env this events) k
  = Some (lastReported k events (status pd)).
Proof.
  revert this pd. induction events as [|ev events IH]; intros this pd Hget.
  - unfold statusOf. simpl. by rewrite Hget.
  - destruct (reconcile_status env this ev k pd Hget) as (pd' & Hget' & Hst).
    unfold reconcileAll in *. simpl. rewrite (IH _ _ Hget').
    by rewrite Hst.
Qed.

End PaymentManagerFacts.

(** *** The payment manager on concrete orders *)

Section PaymentManagerExamples.
Import PaymentManager Fixtures.
#[local] Existing Instance Fixtures.runtime.
#[local] Existing Instance Fixtures.asciiText.
#[local] Existing Instance Fixtures.kolkata.

(** An unknown order: [order_9] on a manager that holds [order_1] only. *)
Lemma webhook_handlers_ignore_unknown_order_witness :
  updatePaymentFromWebhook 7 "order_9" (pay1 "captured") (managerWith created)
    = managerWith created ∧
  markPaymentFailed 7 "order_9" (pay1 "captured") (managerWith created)
    = managerWith created.
Proof.
  apply (webhook_handlers_ignore_unknown_order
           7 "order_9" (pay1 "captured") (managerWith created)).
  reflexivity.
Defined.

(** The browser path for [order_9], which the manager does not hold. *)
Lemma verifyPayment_succeeds_without_record_witness :
  verifyPayment env 7 (Returned (pay1 "captured")) "order_9" "pay_1"
    "key_secret#order_9|pay_1" (managerWith created)
  = (VerifySuccess None (pay1 "captured"), managerWith created).
Proof.
  apply (verifyPayment_succeeds_without_record
           env 7 "key_secret" (pay1 "captured") "order_9" "pay_1"
           "key_secret#order_9|pay_1" (managerWith created));
    reflexivity.
Defined.

(** A forged signature on the [payment.captured] webhook of [order_1]. *)
Lemma handleWebhook_invalid_signature_witness :
  (∀ this, ∃ error,
     handleWebhook env 7 captured1 "forged" this = (WebhookFailure error, this)) ∧
  (∀ s, Server.step s (Server.RazorpayWebhook env 7 captured1 "forged") = s).
Proof.
  apply (handleWebhook_invalid_signature_fails_closed env 7 captured1 "forged").
  vm_compute. discriminate.
Defined.

(** C1 fails as stated: the same signed [payment.captured] webhook, delivered
    twice for the stored order [order_1], runs the post-payment actions
    twice, and the second delivery changes the instance. *)
Lemma captured_twice_triggers_twice :
  let s0 := managerWith created in
  let s1 := deliver env s0 (10, captured1) in
  let s2 := deliver env s1 (20, captured1) in
  statusOf s0 "order_1" = Some created ∧
  List.length (postPaymentActions s2) ≠ 1%nat ∧
  s2 ≠ s1.
Proof.
  vm_compute. split; [reflexivity|]. split; discriminate.
Qed.

(** The same two deliveries, as the code handles them. *)
Lemma captured_webhook_twice_witness :
  let s1 := deliver env (managerWith created) (10, captured1) in
  let s2 := deliver env s1 (20, captured1) in
  statusOf s1 "order_1" = Some completed ∧
  statusOf s2 "order_1" = Some completed ∧
  JSMap.get (pendingPayments s2) "order_1"
    = Some (markCompleted 20 "pay_1" (pay1 "captured") (order1 created)) ∧
  postPaymentActions s1 = [phone] ∧
  postPaymentActions s2 = [phone; phone].
Proof.
  apply (captured_webhook_twice env 10 20 captured1 (pay1 "captured")
           (managerWith created) (order1 created)).
  - split; [reflexivity | eexists; split; reflexivity].
  - reflexivity.
Defined.

(** C2 fails as stated: [order_1], completed by a [payment.captured]
    webhook, is moved to [failed] by a later [payment.failed] webhook. *)
Lemma completed_order_becomes_failed :
  let s1 := deliver env (managerWith created) (10, captured1) in
  let s2 := deliver env s1 (20, failed1) in
  statusOf s1 "order_1" = Some completed ∧
  statusOf s2 "order_1" = Some failed.
Proof. vm_compute. split; reflexivity. Qed.

(** Captured, then failed, then found paid by a poll. *)
Lemma status_is_last_reported_witness :
  statusOf (reconcileAll env (managerWith created)
              [Webhook 10 captured1; Webhook 20 failed1;
               Poll 30 "order_1" (Returned "paid") (Returned [pay1 "captured"])])
    "order_1"
  = Some completed.
Proof.
  apply (status_is_last_reported env
           [Webhook 10 captured1; Webhook 20 failed1;
            Poll 30 "order_1" (Returned "paid") (Returned [pay1 "captured"])]
           (managerWith created) "order_1" (order1 created)).
  reflexivity.
Defined.

End PaymentManagerExamples.

(** ** The conversation manager *)

Section ConversationManagerFacts.
Import ConversationManager.
Context `{JSDate.TimeZone}.
Implicit Types (this : Self) (m : gmap string Conversation) (c : Conversation).

(** C7, as the code has it. [createConversation] never fails: it returns a
    new session in state [initial], without analysis and with no message
    counted, and stores it under the phone number, in place of the session
    that was there if there was one; the other sessions are untouched. *)
Theorem createConversation_stores_fresh_session now phone name this :
  let r := createConversation now phone name this in
  state r.1 = initial ∧
  analysis r.1 = None ∧
  messageCount r.1 = 0 ∧
  ∀ k, getConversation k r.2 =
       if decide (phone = k) then Some r.1 else getConversation k this.
Proof.
  simpl. repeat split. intros k. unfold getConversation. simpl.
  apply lookup_insert.
Qed.

(** The loop of [cleanupOldConversations], entry by entry. *)
Lemma cleanup_loop_absent now l m n k :
  m !! k = None → (foldl (cleanupStep now) (m, n) l).1 !! k = None.
Proof.
  revert m n. induction l as [|[k0 c0] l IH]; intros m n Hk; simpl; [done|].
  unfold cleanupStep at 2. simpl. destruct (expired now c0); simpl.
  - apply IH. rewrite lookup_delete. case_decide; done.
  - by apply IH.
Qed.

Lemma cleanup_loop_removed now l m n k c :
  (k, c) ∈ l → expired now c = true →
  (foldl (cleanupStep now) (m, n) l).1 !! k = None.
Proof.
  revert m n. induction l as [|[k0 c0] l IH]; intros m n Hin Hex; simpl.
  - by apply elem_of_nil in Hin.
  - apply elem_of_cons in Hin as [[= <- <-]|Hin].
    2:{ destruct (cleanupStep now (m, n) (k0, c0)). by apply IH. }
    unfold cleanupStep at 2. simpl. rewrite Hex. simpl.
    apply cleanup_loop_absent, lookup_delete_eq.
Qed.

Lemma cleanup_loop_kept now l m n k :
  (∀ c, (k, c) ∈ l → expired now c = false) →
  (foldl (cleanupStep now) (m, n) l).1 !! k = m !! k.
Proof.
  revert m n. induction l as [|[k0 c0] l IH]; intros m n Hkeep; simpl; [done|].
  unfold cleanupStep at 2. simpl.
  destruct (expired now c0) eqn:Hex; simpl.
  - rewrite IH by (intros c Hc; apply Hkeep; by right).
    apply lookup_delete_ne. intros ->.
    specialize (Hkeep c0 ltac:(left)). congruence.
  - apply IH. intros c Hc. apply Hkeep. by right.
Qed.

Lemma cleanup_loop_count now l m n :
  NoDup l.*1 → (∀ k c, (k, c) ∈ l → m !! k = Some c) →
  let r := foldl (cleanupStep now) (m, n) l in
  (size r.1 + r.2 = size m + n)%nat.
Proof.
  revert m n. induction l as [|[k0 c0] l IH]; intros m n Hnd Hin; simpl; [done|].
  apply NoDup_cons in Hnd as [Hk0 Hnd].
  unfold cleanupStep at 2 4. simpl. destruct (expired now c0); simpl.
  - rewrite IH; [|done|].
    + rewrite map_size_delete, (Hin k0 c0) by left.
      assert (size m ≠ 0%nat).
      { intros Hz. apply map_size_empty_inv in Hz. subst m.
        specialize (Hin k0 c0 ltac:(left)). by rewrite lookup_empty in Hin. }
      lia.
    + intros k c Hkc. rewrite lookup_delete_ne; [apply Hin; by right|].
      intros ->. apply Hk0. apply list_elem_of_fmap. by exists (k, c).
  - apply IH; [done|]. intros k c Hkc. apply Hin. by right.
Qed.

(** The sessions the loop deletes. *)
Lemma expired_spec now c :
  expired now c = true ↔
  (∃ t, lastActive c = Some t ∧ t < JSDate.daysAgo 30 now) ∧
  analysis c = None ∧ pdfGenerated c = false.
Proof.
  unfold expired, thirtyDaysAgo.
  rewrite !andb_true_iff, !negb_true_iff, bool_decide_eq_false.
  destruct (lastActive c) as [t|]; simpl.
  - rewrite bool_decide_eq_true. split.
    + intros [[Ht Ha] Hp]. split; [by eauto|]. split; [|done].
      destruct (analysis c); [|done]. exfalso. apply Ha. by eexists.
    + intros [(t' & [= <-] & Ht) [Ha Hp]]. rewrite Ha.
      repeat split; try done; by intros [? ?].
  - split; [by intros [[? _] _] | by intros [(? & ? & _) _]].
Qed.

(** C8, as the code has it. [cleanupOldConversations] deletes exactly the
    sessions that have no analysis and no generated PDF and whose
    [lastActive] is a date before [thirtyDaysAgo]; every other session is
    kept as it is. [thirtyDaysAgo] is what [setDate(getDate() - 30)] makes
    of now in the local time of the server: the local time of now moved
    back by thirty days and read in the zone again, which is thirty times
    twenty-four hours before now when the zone has the same offset at both
    ends, and off by the difference of the offsets across a change of the
    clock. The local counter ends as the number of deleted sessions and
    [saveAllConversations] runs when it is positive; the call itself
    evaluates to [undefined]. *)
Theorem cleanupOldConversations_removes_expired now this :
  let r := cleanupOldConversations now this in
  let thirtyDaysAgo := JSDate.UTC (JSDate.LocalTime now - 30 * JSDate.msPerDay) in
  (∀ k, conversations (after r) !! k =
        match conversations this !! k with
        | Some c => if expired now c then None else Some c
        | None => None
        end) ∧
  (∀ c, expired now c = true ↔
        (∃ t, lastActive c = Some t ∧ t < thirtyDaysAgo) ∧
        analysis c = None ∧ pdfGenerated c = false) ∧
  (JSDate.LocalTZA (JSDate.LocalTime now - 30 * JSDate.msPerDay) false
     = JSDate.LocalTZA now true →
   thirtyDaysAgo = now - 30 * (24 * 60 * 60 * 1000)) ∧
  (size (conversations this) = size (conversations (after r)) + cleanedCount r)%nat ∧
  saved r = bool_decide (0 < cleanedCount r)%nat ∧
  returned r = undefined.
Proof.
  simpl. split; [|split; [apply expired_spec|split; [apply daysAgo_same_offset|]]];
    repeat split.
  - intros k. destruct (conversations this !! k) as [c|] eqn:Hk.
    + destruct (expired now c) eqn:Hex.
      * apply (cleanup_loop_removed now _ _ _ k c); [|done].
        by apply elem_of_map_to_list.
      * rewrite cleanup_loop_kept; [done|].
        intros c' Hc'. apply elem_of_map_to_list in Hc'. congruence.
    + by apply cleanup_loop_absent.
  - pose proof (cleanup_loop_count now (map_to_list (conversations this))
                  (conversations this) 0%nat) as Hcount.
    simpl in Hcount. rewrite Hcount; [lia| |].
    + apply NoDup_fst_map_to_list.
    + intros k c. apply elem_of_map_to_list.
Qed.

End ConversationManagerFacts.

(** *** The conversation manager on concrete sessions *)

Section ConversationManagerExamples.
Import ConversationManager Fixtures.
#[local] Existing Instance Fixtures.asciiText.
#[local] Existing Instance Fixtures.kolkata.

(** C7 fails as stated: with a session of the phone in state
    [results_shown] in the map, [createConversation] succeeds and the map
    then holds the new session, in state [initial], instead of it. *)
Lemma createConversation_replaces_existing :
  let this := {| conversations := {[ phone := analysed ]} |} in
  let r := createConversation 5000 phone (Some "Mina") this in
  getConversation phone this = Some analysed ∧
  getConversation phone r.2 = Some r.1 ∧
  state r.1 = initial ∧
  getConversation phone r.2 ≠ Some analysed.
Proof.
  simpl. unfold getConversation. simpl.
  rewrite lookup_singleton_eq, lookup_insert_eq.
  repeat split. discriminate.
Qed.

(** C8 fails as stated: the clean-up deletes the one idle session, counts
    it, and evaluates to [undefined], not to the count. *)
Lemma cleanupOldConversations_returns_undefined :
  let this := {| conversations := {[ "15550100" := idle ]} |} in
  let r := cleanupOldConversations fortyDays this in
  conversations (after r) !! "15550100" = None ∧
  cleanedCount r = 1%nat ∧
  returned r ≠ number 1.
Proof.
  simpl. rewrite map_to_list_singleton. simpl.
  rewrite lookup_delete_eq. repeat split. discriminate.
Qed.

End ConversationManagerExamples.

(** ** The message handlers *)

Section ServerFacts.
Import GeminiColorAnalyzer ConversationManager JSString Server.
Context `{JSString.Prototype}.
Implicit Types (ext : External) (w : World) (c : Conversation).

(** Unfolding of the handler monad. *)
Ltac run_handler :=
  unfold mbind, mret, Handler_bind, Handler_ret, try_catch, assign, await, throw,
    getConversationObject, getPaymentManager in *;
  simpl in *.

(** A membership in a list of constructors that does not hold. *)
Ltac decide_membership H :=
  repeat (apply elem_of_cons in H as [H|H]; [discriminate H|]);
  by apply elem_of_nil in H.

(** C6, as the code has it. An unrecognised text, that is one which after
    [toLowerCase] and [trim], whatever the two compute, passes none of the
    tests of the branch of its state, makes [handleTextMessage]
    call the gateway exactly once, in every state of the enumeration, and
    when the gateway accepts the call exactly one message is out and the
    handler returns. In the states [guide_shown], [waiting_for_photo],
    [analyzing], [results_shown] and [payment_pending] the conversation is
    left as it is; in the state [initial] the message is the welcome and,
    once it is accepted, the state becomes [guide_shown]. *)
Theorem unknown_text_gets_one_reply ext phone text w :
  let s := state (conversation w) in
  let r := handleTextMessage ext phone text w in
  s ∈ enumeration →
  unknownIntent s (trim (toLowerCase text)) = true →
  sendCalls (services r.2) = S (sendCalls (services w)) ∧
  (sendOk ext (sendCalls (services w)) = true →
   r.1 = Returned tt ∧
   ∃ msg, outbox (services r.2) = outbox (services w) ++ [(phone, msg)]) ∧
  (s ∈ [guide_shown; waiting_for_photo; analyzing; results_shown; payment_pending] →
   conversation r.2 = conversation w) ∧
  (s = initial → sendOk ext (sendCalls (services w)) = true →
   state (conversation r.2) = guide_shown ∧
   outbox (services r.2) = outbox (services w) ++ [(phone, WelcomeMessage)]).
Proof.
  intros s r Hs Hunknown. subst s r.
  unfold handleTextMessage. run_handler.
  unfold sendWelcomeMessage, sendGuideMessage, sendResultsOptions, sendTextMessage.
  unfold unknownIntent in Hunknown.
  destruct (state (conversation w)) eqn:Hst; simpl in *.
  all: try (by exfalso; decide_membership Hs).
  all: repeat (apply andb_true_iff in Hunknown as [Hunknown ?]).
  all: repeat match goal with
         | H : negb ?b = true |- _ => apply negb_true_iff in H; rewrite ?H
         end.
  all: simpl.
  all: destruct (sendOk ext (sendCalls (services w))) eqn:Hok; simpl.
  all: repeat split; try done.
  all: try (by intros Hin; exfalso; decide_membership Hin).
  all: try (by intros; eexists).
Qed.

(** The [catch] of [analyzeColors]: a timeout, a rate limit, a rejected
    image and any other error all become a failure result. *)
Lemma analyzeColors_error_is_failure key e :
  success (analyzeColors key (GeminiThrows e)) = false.
Proof. unfold analyzeColors. by repeat case_match. Qed.

Lemma gemini_error_analysisFails ext e :
  gemini ext = GeminiThrows e → analysisFails ext.
Proof.
  intros He media _. unfold analyzeFromBuffer. rewrite He.
  destruct (validateImage _ _); [apply analyzeColors_error_is_failure | done].
Qed.

(** When the analysis fails and the [try] block still returns, it has set
    the state back to [waiting_for_photo]. *)
Lemma processImage_failure_state ext phone image w :
  analysisFails ext →
  (processImage ext phone image w).1 = Returned tt →
  state (conversation (processImage ext phone image w).2) = waiting_for_photo.
Proof.
  intros Hfail. unfold processImage, sendTextMessage. run_handler.
  destruct (sendOk ext (sendCalls (services w))); simpl; [|done].
  destruct (truthy (url image)); simpl; [|done].
  destruct (downloadMedia ext) as [media|] eqn:Hdl; simpl; [|done].
  specialize (Hfail media Hdl).
  destruct (writeFileSync ext); simpl; [|done].
  destruct (unlinkSync ext); simpl; [|done].
  destruct (analyzeFromBuffer _ _ _ _); simpl in *; [done|].
  by destruct (sendOk ext _).
Qed.

(** The state after [handleImageMessage] when the analysis fails or the
    [try] block throws. *)
Lemma handleImageMessage_failure_state ext phone image w :
  state (conversation w) = waiting_for_photo →
  analysisFails ext ∨ (∃ e, (processImage ext phone image w).1 = Thrown e) →
  state (conversation (handleImageMessage ext phone image w).2) = waiting_for_photo.
Proof.
  intros Hst Hcause. unfold handleImageMessage. run_handler. rewrite Hst. simpl.
  pose proof (processImage_failure_state ext phone image w) as Hrec.
  destruct (processImage ext phone image w) as [[[]|e] w1]; simpl in *.
  - destruct Hcause as [Hfail|[e He]]; [by apply Hrec | done].
  - unfold sendTextMessage. by destruct (sendOk ext _).
Qed.

(** C4. A session in state [waiting_for_photo] receives an image. If the
    Gemini request throws (a timeout, a rate limit, an invalid image or
    any other error), or [analyzeFromBuffer] otherwise answers a failure,
    or the [try] block of [handleImageMessage] throws, then when the
    handler completes, by returning or by throwing, the state of the
    session is [waiting_for_photo]; it is not [analyzing]. *)
Theorem handleImageMessage_recovers ext phone image w :
  state (conversation w) = waiting_for_photo →
  (∃ e, gemini ext = GeminiThrows e) ∨
  analysisFails ext ∨
  (∃ e, (processImage ext phone image w).1 = Thrown e) →
  let w' := (handleImageMessage ext phone image w).2 in
  state (conversation w') = waiting_for_photo ∧
  state (conversation w') ≠ analyzing.
Proof.
  intros Hst Hcause w'.
  assert (state (conversation w') = waiting_for_photo) as Hw'; [|by rewrite Hw'].
  subst w'. apply handleImageMessage_failure_state; [done|].
  destruct Hcause as [[e He]|[Hfail|Hthrown]].
  - left. by apply (gemini_error_analysisFails ext e).
  - by left.
  - by right.
Qed.

(** The same at the level of [handleMessage]: the session in the map is
    the object the handler has reset, whether the handler returned (and
    the session was saved) or threw. *)
Lemma handleMessage_image_failure_state ext message contactName s c img :
  getConversation (from message) (conversationManager s) = Some c →
  state c = waiting_for_photo →
  type message = "image" →
  image message = Some img →
  analysisFails ext →
  ∃ c', getConversation (from message)
          (conversationManager (handleMessage ext message contactName s).2) = Some c' ∧
        state c' = waiting_for_photo.
Proof.
  intros Hc Hst Htype Himg Hfail. unfold handleMessage. rewrite Hc.
  unfold dispatch. rewrite Htype, Himg. simpl.
  pose proof (handleImageMessage_failure_state ext (from message) img
                {| conversation := set_lastActive (timestamp message) c;
                   services := shared s |} Hst (or_introl Hfail)) as Hafter.
  destruct (handleImageMessage ext (from message) img _) as [[[]|e] w'];
    simpl in *.
  - eexists. split; [apply lookup_insert_eq|done].
  - destruct (sendTextMessage ext (from message) GenericError w') as [r' w''].
    simpl. eexists. split; [apply lookup_insert_eq|done].
Qed.

(** *** The analysis and the state *)

Section AllSendsAccepted.
Variable ext : External.
Hypothesis accepted : ∀ n, sendOk ext n = true.

(** With every call accepted, [sendTextMessage] returns. *)
Lemma sendTextMessage_accepted to msg w :
  sendTextMessage ext to msg w =
    (Returned tt,
     {| conversation := conversation w;
        services := {| paymentManager := paymentManager (services w);
                       outbox := outbox (services w) ++ [(to, msg)];
                       sendCalls := S (sendCalls (services w)) |} |}).
Proof. unfold sendTextMessage. simpl. by rewrite accepted. Qed.

Ltac run_sends :=
  unfold sendWelcomeMessage, sendGuideMessage, sendPhotoInstructions,
    sendResultsOptions in *;
  run_handler; rewrite ?sendTextMessage_accepted; simpl.

Lemma sendAnalysisResults_accepted phone a w :
  (sendAnalysisResults ext phone a w).1 = Returned tt ∧
  conversation (sendAnalysisResults ext phone a w).2 = conversation w.
Proof.
  unfold sendAnalysisResults, whenNonEmpty. run_sends.
  destruct (key_colors a); run_sends;
    destruct (neutrals a); run_sends;
    destruct (colors_to_avoid a); run_sends; done.
Qed.

Lemma handlePDFRequest_invariant phone w :
  analysisOnlyAfterResults (conversation w) = true →
  analysisOnlyAfterResults (conversation (handlePDFRequest ext phone w).2) = true.
Proof.
  intros Hinv. unfold handlePDFRequest, createPaymentLink. run_sends.
  destruct (analysis (conversation w)) eqn:Ha; run_sends; [|done].
  unfold PaymentManager.createPaymentLink.
  destruct (ordersCreate ext); run_sends; [|done].
  unfold analysisOnlyAfterResults. simpl. by rewrite Ha.
Qed.

Lemma resetAnalysis_invariant phone w :
  analysisOnlyAfterResults (conversation (resetAnalysis ext phone w).2) = true ∧
  analysis (conversation (resetAnalysis ext phone w).2) = None ∧
  state (conversation (resetAnalysis ext phone w).2) = guide_shown.
Proof. unfold resetAnalysis. run_sends. done. Qed.

Lemma shareResults_invariant phone w :
  conversation (shareResults ext phone w).2 = conversation w.
Proof.
  unfold shareResults. run_sends.
  destruct (analysis (conversation w)); run_sends; done.
Qed.

Lemma checkPaymentStatus_invariant phone w :
  analysisOnlyAfterResults (conversation w) = true →
  analysisOnlyAfterResults (conversation (checkPaymentStatus ext phone w).2) = true.
Proof.
  intros Hinv. unfold checkPaymentStatus. run_sends.
  destruct (PaymentManager.getPaymentByPhoneNumber _ _); run_sends; [|done].
  case_bool_decide; run_sends; [|done].
  unfold analysisOnlyAfterResults in *. simpl. by destruct (analysis _).
Qed.

Lemma handleTextMessage_invariant phone text w :
  analysisOnlyAfterResults (conversation w) = true →
  (is_Some (analysis (conversation w)) → state (conversation w) ≠ completed) →
  analysisOnlyAfterResults (conversation (handleTextMessage ext phone text w).2) = true.
Proof.
  intros Hinv Hback. unfold handleTextMessage. run_sends.
  unfold analysisOnlyAfterResults in Hinv.
  destruct (state (conversation w)) eqn:Hst.
  all: repeat match goal with
         | |- context [if ?b then _ else _] => destruct b
         end.
  all: run_sends.
  all: try apply handlePDFRequest_invariant.
  all: try apply resetAnalysis_invariant.
  all: try rewrite shareResults_invariant.
  all: try apply checkPaymentStatus_invariant.
  all: unfold analysisOnlyAfterResults; simpl; rewrite ?Hst.
  all: destruct (analysis (conversation w)) eqn:Ha; try done.
  exfalso. by apply Hback.
Qed.

Lemma handleImageMessage_invariant phone image w :
  analysisOnlyAfterResults (conversation w) = true →
  analysisOnlyAfterResults (conversation (handleImageMessage ext phone image w).2) = true.
Proof.
  intros Hinv. unfold handleImageMessage. run_sends.
  case_bool_decide as Hst; run_sends; [|done].
  unfold analysisOnlyAfterResults in Hinv. rewrite Hst in Hinv.
  destruct (analysis (conversation w)) eqn:Ha; [done|].
  unfold processImage. run_sends.
  destruct (truthy (url image)); run_sends.
  2:{ unfold analysisOnlyAfterResults. simpl. by rewrite Ha. }
  destruct (downloadMedia ext) as [media|]; run_sends.
  2:{ unfold analysisOnlyAfterResults. simpl. by rewrite Ha. }
  destruct (writeFileSync ext) as [[]|]; run_sends.
  2:{ unfold analysisOnlyAfterResults. simpl. by rewrite Ha. }
  destruct (unlinkSync ext) as [[]|]; run_sends.
  2:{ unfold analysisOnlyAfterResults. simpl. by rewrite Ha. }
  destruct (analyzeFromBuffer _ _ _ _) as [a|err]; run_sends.
  - match goal with
    | |- context [sendAnalysisResults ext phone a ?w0] =>
        destruct (sendAnalysisResults_accepted phone a w0) as [Hret Hconv];
        destruct (sendAnalysisResults ext phone a w0) as [r w1]
    end.
    simpl in *. subst r. simpl. by rewrite Hconv.
  - unfold analysisOnlyAfterResults. simpl. by rewrite Ha.
Qed.

Lemma handleInteractiveMessage_invariant phone interactive w :
  analysisOnlyAfterResults (conversation w) = true →
  (is_Some (analysis (conversation w)) →
   ∀ i, interactive = Some i →
        buttonId i ≠ Some "start_analysis" ∧ buttonId i ≠ Some "1") →
  analysisOnlyAfterResults
    (conversation (handleInteractiveMessage ext phone interactive w).2) = true.
Proof.
  intros Hinv Hback. unfold handleInteractiveMessage.
  destruct interactive as [i|]; [|by run_sends].
  repeat case_bool_decide; simpl.
  all: try apply handlePDFRequest_invariant.
  all: try apply resetAnalysis_invariant.
  all: try rewrite shareResults_invariant.
  all: try done.
  all: run_sends.
  all: unfold analysisOnlyAfterResults in *; simpl.
  all: destruct (analysis (conversation w)) eqn:Ha; try done.
  all: exfalso; destruct (Hback ltac:(done) i eq_refl); done.
Qed.

Lemma dispatch_invariant message w :
  analysisOnlyAfterResults (conversation w) = true →
  goesBackWithAnalysis (conversation w) message = false →
  analysisOnlyAfterResults (conversation (dispatch ext message w).2) = true.
Proof.
  intros Hinv Hback. unfold dispatch. unfold goesBackWithAnalysis in Hback.
  destruct (String.eqb (type message) "text") eqn:Etext;
    [destruct (text message) as [[body|]|] eqn:Ebody|].
  - apply handleTextMessage_invariant; [done|].
    intros Hsome Hst. rewrite bool_decide_eq_true_2 in Hback by done.
    by rewrite bool_decide_eq_true_2 in Hback.
  - by run_sends.
  - destruct (String.eqb (type message) "image") eqn:Eimage.
    { apply String.eqb_eq in Etext, Eimage. congruence. }
    destruct (String.eqb (type message) "interactive") eqn:Einter.
    { apply String.eqb_eq in Etext, Einter. congruence. }
    by run_sends.
  - destruct (String.eqb (type message) "image") eqn:Eimage;
      [destruct (image message) as [img|] eqn:Eimg|].
    + by apply handleImageMessage_invariant.
    + destruct (String.eqb (type message) "interactive") eqn:Einter.
      { apply String.eqb_eq in Eimage, Einter. congruence. }
      by run_sends.
    + destruct (String.eqb (type message) "interactive") eqn:Einter;
        [|by run_sends].
      apply handleInteractiveMessage_invariant; [done|].
      intros Hsome i Hi. rewrite Hi in Hback.
      rewrite bool_decide_eq_true_2 in Hback by done. simpl in Hback.
      apply orb_false_iff in Hback as [H1 H2].
      split; by apply (bool_decide_eq_false_1 _).
Qed.


End AllSendsAccepted.

End ServerFacts.

(** *** The handlers on concrete sessions *)

Section ServerExamples.
Import GeminiColorAnalyzer ConversationManager JSString Server Fixtures.
#[local] Existing Instance Fixtures.runtime.
#[local] Existing Instance Fixtures.asciiText.
#[local] Existing Instance Fixtures.kolkata.

(** The Gemini request times out on the selfie of a waiting session. *)
Lemma handleImageMessage_recovers_witness :
  let w' := (handleImageMessage geminiTimesOut phone selfie
               (worldIn waiting_for_photo None)).2 in
  state (conversation w') = waiting_for_photo ∧
  state (conversation w') ≠ analyzing.
Proof.
  apply (handleImageMessage_recovers geminiTimesOut phone selfie
           (worldIn waiting_for_photo None)).
  - reflexivity.
  - left. exists axiosTimeout. reflexivity.
Defined.

(** C6 fails as stated: in state [initial] a text with none of the words
    start, begin, hi and hello takes the session to [guide_shown]. *)
Lemma unknown_text_leaves_initial :
  let w := worldIn initial None in
  let r := handleTextMessage goodDay phone "Colour me" w in
  state (conversation w) = initial ∧
  initial ∈ enumeration ∧
  unknownIntent initial (trim (toLowerCase "Colour me")) = true ∧
  state (conversation r.2) = guide_shown ∧
  state (conversation r.2) ≠ state (conversation w).
Proof.
  simpl. repeat split; [apply list_elem_of_here | discriminate].
Qed.

Lemma unknown_text_gets_one_reply_witness :
  let w := worldIn results_shown (Some softAutumn) in
  let r := handleTextMessage goodDay phone "Colour me" w in
  sendCalls (services r.2) = 1%nat ∧
  (true = true →
   r.1 = Returned tt ∧ ∃ msg, outbox (services r.2) = [] ++ [(phone, msg)]) ∧
  (results_shown ∈
     [guide_shown; waiting_for_photo; analyzing; results_shown; payment_pending] →
   conversation r.2 = conversation w) ∧
  (results_shown = initial → true = true →
   state (conversation r.2) = guide_shown ∧
   outbox (services r.2) = [] ++ [(phone, WelcomeMessage)]).
Proof.
  apply (unknown_text_gets_one_reply goodDay phone "Colour me"
           (worldIn results_shown (Some softAutumn))).
  - simpl. do 4 apply list_elem_of_further. apply list_elem_of_here.
  - reflexivity.
Defined.



End ServerExamples.

(** * Further properties of the code *)

(** ** The insertion-ordered map, continued *)

Section JSMapOrder.
Context {V : Type}.
Implicit Types (m pre : JSMap.t V) (k : string) (v : V).

Lemma jsmap_get_None_keys m k : JSMap.get m k = None ↔ k ∉ JSMap.keys m.
Proof.
  unfold JSMap.keys. induction m as [|[k' v'] m IH]; simpl.
  - split; [intros _; apply not_elem_of_nil | done].
  - rewrite not_elem_of_cons.
    destruct (String.eqb_spec k k') as [->|Hne]; split; try done.
    + by intros [? _].
    + intros Hg. split; [done|by apply IH].
    + intros [_ Hk]. by apply IH.
Qed.

Lemma jsmap_get_Some_elem m k v : JSMap.get m k = Some v → (k, v) ∈ m.
Proof.
  induction m as [|[k' v'] m IH]; simpl; [done|].
  destruct (String.eqb_spec k k') as [->|Hne].
  - intros [= ->]. apply list_elem_of_here.
  - intros Hg. apply list_elem_of_further. by apply IH.
Qed.

Lemma jsmap_set_fresh m k v :
  JSMap.get m k = None → JSMap.set m k v = m ++ [(k, v)].
Proof.
  induction m as [|[k' v'] m IH]; simpl; [done|].
  destruct (String.eqb_spec k k') as [->|Hne]; [done|].
  intros Hg. by rewrite IH.
Qed.

Lemma jsmap_keys_set_stored m k v :
  is_Some (JSMap.get m k) → JSMap.keys (JSMap.set m k v) = JSMap.keys m.
Proof.
  unfold JSMap.keys. induction m as [|[k' v'] m IH]; simpl.
  - by intros [? ?].
  - destruct (String.eqb_spec k k') as [->|Hne]; [done|].
    intros Hg. cbn. f_equal. by apply IH.
Qed.

Lemma jsmap_delete_middle pre k v m :
  k ∉ JSMap.keys pre → JSMap.delete (pre ++ (k, v) :: m) k = pre ++ m.
Proof.
  unfold JSMap.keys. induction pre as [|[k' v'] pre IH]; simpl.
  - intros _. by rewrite String.eqb_refl.
  - rewrite not_elem_of_cons. intros [Hne Hk].
    destruct (String.eqb_spec k k'); [done|]. by rewrite IH.
Qed.

(** What [find] finds in a list, it finds when entries are appended. *)
Lemma find_app_found {A} (f : A → bool) (l l' : list A) (x : A) :
  List.find f l = Some x → List.find f (l ++ l') = Some x.
Proof.
  induction l as [|y l IH]; simpl; [done|]. destruct (f y); [done|]. apply IH.
Qed.

End JSMapOrder.

(** ** The payment manager, continued *)

Section PaymentManagerMore.
Import PaymentManager.
Context `{NodeRuntime}.
Context `{JSDate.TimeZone}.
Implicit Types (this : Self) (e : PaymentEntity) (pd : PaymentData).

(** X1. When Razorpay mints the order [oid], [createPaymentLink] returns
    the link [baseUrl/pay/oid] and the map then holds, under [oid], an
    order of the phone in status [created] for 69900 paise (INR) with the
    analysis given; every other order is as before and no post-payment
    action has run. When Razorpay rejects, the call throws its own error
    and the instance is unchanged. *)
Theorem createPaymentLink_registers_order env now oid phone a this :
  let r := createPaymentLink env now (Returned oid) phone a this in
  r.1 = Returned (baseUrl env +:+ "/pay/" +:+ oid) ∧
  (∃ pd, JSMap.get (pendingPayments r.2) oid = Some pd ∧
         orderId pd = oid ∧ phoneNumber pd = phone ∧ status pd = created ∧
         amount pd = 69900 ∧ currency pd = "INR" ∧ createdAt pd = now ∧
         analysis pd = a ∧ completedAt pd = None ∧ failureReason pd = None) ∧
  (∀ k, JSMap.get (pendingPayments r.2) k =
        if decide (oid = k) then JSMap.get (pendingPayments r.2) oid
        else JSMap.get (pendingPayments this) k) ∧
  postPaymentActions r.2 = postPaymentActions this ∧
  (∀ err, createPaymentLink env now (Thrown err) phone a this =
          (Thrown (Error "Failed to create payment link. Please try again."), this)).
Proof.
  simpl. split; [done|]. split.
  - eexists. split; [apply jsmap_get_set_eq|]. by repeat split.
  - split; [|done]. intros k. case_decide as Hk; [by subst|].
    by apply jsmap_get_set_ne.
Qed.

(** Whether [verifyPayment] answered a success. *)
Lemma verifyPayment_outcome env now fetched oid pid signature this :
  let r := verifyPayment env now fetched oid pid signature this in
  (∃ error, r = (VerifyFailure error, this)) ∨
  (∃ key payment data,
     RAZORPAY_KEY_SECRET env = Some key ∧
     signature = hmacSha256Hex key (oid +:+ "|" +:+ pid) ∧
     fetched = Returned payment ∧
     entity_status payment = "captured" ∧
     r.1 = VerifySuccess data payment).
Proof.
  simpl. unfold verifyPayment.
  destruct (RAZORPAY_KEY_SECRET env) as [key|]; [|by eauto].
  destruct (String.eqb_spec signature (hmacSha256Hex key (oid +:+ "|" +:+ pid)))
    as [->|Hsig]; simpl; [|by eauto].
  destruct fetched as [payment|]; [|by eauto].
  destruct (String.eqb_spec (entity_status payment) "captured") as [Hst|Hst];
    simpl; [|by eauto].
  right. exists key, payment.
  destruct (JSMap.get (pendingPayments this) oid); simpl; eauto 10.
Qed.

(** X2. [verifyPayment] fails closed: when the key secret is not set, or
    the signature is not the HMAC of [orderId|paymentId], or fetching the
    payment fails, or the fetched payment is not captured, the answer is a
    failure and the instance (orders and post-payment trace) is exactly
    the one before the call. *)
Theorem verifyPayment_fails_closed env now fetched oid pid signature this :
  RAZORPAY_KEY_SECRET env = None ∨
  (∃ key, RAZORPAY_KEY_SECRET env = Some key ∧
          signature ≠ hmacSha256Hex key (oid +:+ "|" +:+ pid)) ∨
  (∃ err, fetched = Thrown err) ∨
  (∃ payment, fetched = Returned payment ∧ entity_status payment ≠ "captured") →
  ∃ error,
    verifyPayment env now fetched oid pid signature this = (VerifyFailure error, this).
Proof.
  intros Hcause.
  destruct (verifyPayment_outcome env now fetched oid pid signature this)
    as [Hfail|(key & payment & data & Hkey & Hsig & Hf & Hst & _)]; [done|].
  exfalso. destruct Hcause as [Hnone|[(key' & Hkey' & Hne)|[(err & He)|(p & Hp & Hne)]]].
  - congruence.
  - rewrite Hkey in Hkey'. injection Hkey' as <-. done.
  - congruence.
  - rewrite Hf in Hp. injection Hp as <-. done.
Qed.

(** X3. On the browser path, a valid signature and a captured payment for
    a stored order complete it: the answer carries the updated record,
    the order is [completed] with the payment id and the time of the call,
    every other order is as before, and, unlike the webhook path, no
    post-payment action runs. *)
Theorem verifyPayment_completes_stored_order
    env now key payment oid pid signature this pd :
  RAZORPAY_KEY_SECRET env = Some key →
  signature = hmacSha256Hex key (oid +:+ "|" +:+ pid) →
  entity_status payment = "captured" →
  JSMap.get (pendingPayments this) oid = Some pd →
  let r := verifyPayment env now (Returned payment) oid pid signature this in
  let pd' := markCompleted now pid payment pd in
  r.1 = VerifySuccess (Some pd') payment ∧
  JSMap.get (pendingPayments r.2) oid = Some pd' ∧
  status pd' = completed ∧ paymentId pd' = Some pid ∧ completedAt pd' = Some now ∧
  (∀ k, k ≠ oid → JSMap.get (pendingPayments r.2) k = JSMap.get (pendingPayments this) k) ∧
  postPaymentActions r.2 = postPaymentActions this.
Proof.
  intros Hkey -> Hst Hget. simpl. unfold verifyPayment.
  rewrite Hkey, String.eqb_refl, Hst, Hget. simpl.
  rewrite jsmap_get_set_eq. repeat split.
  intros k Hk. by apply jsmap_get_set_ne.
Qed.

(** X4. Once a [payment.captured] webhook has completed a stored order,
    polling that order changes nothing and answers [completed] with the
    record the webhook wrote, whatever Razorpay answers to the poll. *)
Theorem poll_after_capture_is_noop now now' k e this pd order payments :
  JSMap.get (pendingPayments this) k = Some pd →
  let s1 := updatePaymentFromWebhook now k e this in
  checkPaymentStatus now' order payments k s1
  = (StatusSuccess completed (markCompleted now (id e) e pd), s1).
Proof.
  intros Hget. simpl. unfold updatePaymentFromWebhook, checkPaymentStatus.
  rewrite Hget. simpl. by rewrite jsmap_get_set_eq.
Qed.

(** X5. Whatever Razorpay answers, [checkPaymentStatus] runs no
    post-payment action, adds and removes no order, leaves every order
    other than the polled one as it is, and changes the status of the
    polled one, if at all, to [completed]: a poll never marks an order
    failed. For an order id that is not stored it answers the failure
    [Payment record not found]. *)
Theorem checkPaymentStatus_frame now order payments k this :
  let r := checkPaymentStatus now order payments k this in
  postPaymentActions r.2 = postPaymentActions this ∧
  JSMap.keys (pendingPayments r.2) = JSMap.keys (pendingPayments this) ∧
  (∀ k', k' ≠ k →
     JSMap.get (pendingPayments r.2) k' = JSMap.get (pendingPayments this) k') ∧
  (statusOf r.2 k = statusOf this k ∨ statusOf r.2 k = Some completed) ∧
  (JSMap.get (pendingPayments this) k = None →
   r = (StatusFailure "Payment record not found", this)).
Proof.
  simpl. unfold checkPaymentStatus, statusOf.
  destruct (JSMap.get (pendingPayments this) k) as [pd|] eqn:Hget.
  2:{ simpl. rewrite Hget. repeat split; auto. }
  assert (∀ pd',
    let s := setPayments this (JSMap.set (pendingPayments this) k pd') in
    status pd' = completed →
    postPaymentActions s = postPaymentActions this ∧
    JSMap.keys (pendingPayments s) = JSMap.keys (pendingPayments this) ∧
    (∀ k', k' ≠ k →
       JSMap.get (pendingPayments s) k' = JSMap.get (pendingPayments this) k') ∧
    (status <$> JSMap.get (pendingPayments s) k = Some (status pd) ∨
     status <$> JSMap.get (pendingPayments s) k = Some completed) ∧
    (Some pd = None → False)) as Hset.
  { intros pd' s Hst. subst s. simpl. repeat split; try done.
    - apply jsmap_keys_set_stored. by rewrite Hget.
    - intros k' Hk'. by apply jsmap_get_set_ne.
    - right. by rewrite jsmap_get_set_eq, <- Hst. }
  repeat case_match; simpl; rewrite ?Hget; simpl;
    try (repeat split; auto; done).
  destruct (Hset (markCompleted now (id p) p pd) eq_refl) as (?&?&?&?&?).
  repeat split; auto. done.
Qed.

(** The two webhook handlers keep the keys of the map. *)
Lemma updatePaymentFromWebhook_keys now k e this :
  JSMap.keys (pendingPayments (updatePaymentFromWebhook now k e this))
  = JSMap.keys (pendingPayments this).
Proof.
  unfold updatePaymentFromWebhook.
  destruct (JSMap.get (pendingPayments this) k) eqn:Hget; [|done].
  simpl. apply jsmap_keys_set_stored. by rewrite Hget.
Qed.

Lemma markPaymentFailed_keys now k e this :
  JSMap.keys (pendingPayments (markPaymentFailed now k e this))
  = JSMap.keys (pendingPayments this).
Proof.
  unfold markPaymentFailed.
  destruct (JSMap.get (pendingPayments this) k) eqn:Hget; [|done].
  simpl. apply jsmap_keys_set_stored. by rewrite Hget.
Qed.

(** X6. Whatever the body and the signature, [handleWebhook] adds and
    removes no order, and an order is left exactly as it is unless it is
    the one the payment entity of the body names. A body without
    [payload] is answered with the failure of the [catch], and leaves the
    instance unchanged, even when its signature is valid. *)
Theorem handleWebhook_frame env now body signature this :
  let r := handleWebhook env now body signature this in
  JSMap.keys (pendingPayments r.2) = JSMap.keys (pendingPayments this) ∧
  (∀ k, (∀ entities e, payload body = Some entities →
                       payment entities = Some e → order_id e ≠ k) →
        JSMap.get (pendingPayments r.2) k = JSMap.get (pendingPayments this) k) ∧
  (payload body = None → ∃ error, r = (WebhookFailure error, this)).
Proof.
  simpl. unfold handleWebhook.
  destruct (negb _); simpl; [by eauto|].
  destruct (payload body) as [entities|]; simpl; [|by eauto].
  destruct (payment entities) as [e|] eqn:He; simpl.
  2:{ by repeat case_match. }
  repeat case_match; simpl; try done.
  - split; [apply updatePaymentFromWebhook_keys|]. split; [|done].
    intros k Hk. specialize (Hk entities e eq_refl He).
    unfold updatePaymentFromWebhook.
    destruct (JSMap.get (pendingPayments this) (order_id e)); [|done].
    simpl. by apply jsmap_get_set_ne.
  - split; [apply markPaymentFailed_keys|]. split; [|done].
    intros k Hk. specialize (Hk entities e eq_refl He).
    unfold markPaymentFailed.
    destruct (JSMap.get (pendingPayments this) (order_id e)); [|done].
    simpl. by apply jsmap_get_set_ne.
Qed.

(** X7. An order completed by a [payment.captured] webhook and then
    reported by a [payment.failed] webhook is stored as [failed] while it
    still carries the payment id and the completion time of the capture;
    its failure reason is the reported one, or [Unknown error] when none
    is reported; the failure runs no post-payment action. *)
Theorem failed_after_capture_keeps_completion now1 now2 k e1 e2 this pd :
  JSMap.get (pendingPayments this) k = Some pd →
  let s1 := updatePaymentFromWebhook now1 k e1 this in
  let s2 := markPaymentFailed now2 k e2 s1 in
  ∃ pd2, JSMap.get (pendingPayments s2) k = Some pd2 ∧
         status pd2 = failed ∧
         failedAt pd2 = Some now2 ∧
         completedAt pd2 = Some now1 ∧
         paymentId pd2 = Some (id e1) ∧
         failureReason pd2 =
           Some (match error_reason e2 with
                 | Some reason => if String.eqb reason EmptyString
                                  then "Unknown error" else reason
                 | None => "Unknown error"
                 end) ∧
         postPaymentActions s2 = postPaymentActions s1.
Proof.
  intros Hget. simpl. unfold markPaymentFailed, updatePaymentFromWebhook.
  rewrite Hget. simpl. rewrite jsmap_get_set_eq. simpl.
  rewrite jsmap_get_set_eq. eexists. by repeat split.
Qed.

(** X8. [getPaymentByPhoneNumber] answers the oldest order of the phone:
    when it finds an order, it finds the same one after
    [createPaymentLink] has stored an order under a new id, for whatever
    phone. *)
Theorem getPaymentByPhoneNumber_keeps_oldest env now oid phone phone' a this pd :
  getPaymentByPhoneNumber phone this = Some pd →
  JSMap.get (pendingPayments this) oid = None →
  getPaymentByPhoneNumber phone
    (createPaymentLink env now (Returned oid) phone' a this).2 = Some pd.
Proof.
  intros Hfound Hfresh. unfold getPaymentByPhoneNumber, JSMap.values in *. simpl.
  rewrite (jsmap_set_fresh _ _ _ Hfresh), fmap_app. by apply find_app_found.
Qed.

(** The loop of [cleanupOldPayments] on the entries still to visit. *)
Lemma cleanupPayments_loop now pre l n :
  NoDup (JSMap.keys (pre ++ l)) →
  foldl (cleanupPaymentsStep now) (pre ++ l, n) l
  = (pre ++ List.filter (λ entry, negb (stale now entry.2)) l,
     (n + List.length (List.filter (λ entry, stale now entry.2) l))%nat).
Proof.
  revert pre n. induction l as [|[k pd] l IH]; intros pre n Hnd; simpl.
  - f_equal. lia.
  - unfold cleanupPaymentsStep at 2. simpl.
    assert (k ∉ JSMap.keys pre) as Hk.
    { unfold JSMap.keys in *. rewrite fmap_app in Hnd.
      apply NoDup_app in Hnd as (_ & Hdisj & _).
      intros Hin. apply (Hdisj k Hin). simpl. apply list_elem_of_here. }
    destruct (stale now pd) eqn:Hstale; simpl.
    + rewrite jsmap_delete_middle by done. rewrite IH.
      * f_equal. lia.
      * unfold JSMap.keys in *. rewrite fmap_app in *. simpl in Hnd.
        apply NoDup_app in Hnd as (Hpre & Hdisj & Hl).
        apply NoDup_cons in Hl as [_ Hl].
        apply NoDup_app. repeat split; [done| |done].
        intros x Hx Hx'. apply (Hdisj x Hx). by apply list_elem_of_further.
    + replace (pre ++ (k, pd) :: l) with ((pre ++ [(k, pd)]) ++ l)
        by (by rewrite <- app_assoc).
      rewrite IH.
      * by rewrite <- app_assoc.
      * by rewrite <- app_assoc.
Qed.

(** The orders the loop deletes. *)
Lemma stale_spec now pd :
  stale now pd = true ↔
  createdAt pd < JSDate.daysAgo 7 now ∧ status pd ≠ completed.
Proof.
  unfold stale, sevenDaysAgo.
  by rewrite andb_true_iff, negb_true_iff, bool_decide_eq_true, bool_decide_eq_false.
Qed.

(** X9. On a map with distinct order ids, [cleanupOldPayments] removes
    exactly the orders whose status is not [completed] and that were
    created before [sevenDaysAgo], keeps the others in their order, and
    counts the removed ones; a completed order is never removed, however
    old. [sevenDaysAgo] is what [setDate(getDate() - 7)] makes of now in
    the local time of the server: the local time of now moved back by
    seven days and read in the zone again, which is seven times
    twenty-four hours before now when the zone has the same offset at both
    ends. *)
Theorem cleanupOldPayments_removes_stale now this :
  NoDup (JSMap.keys (pendingPayments this)) →
  let r := cleanupOldPayments now this in
  let sevenDaysAgo := JSDate.UTC (JSDate.LocalTime now - 7 * JSDate.msPerDay) in
  pendingPayments r.1 =
    List.filter (λ entry, negb (stale now entry.2)) (pendingPayments this) ∧
  (∀ pd, stale now pd = true ↔ createdAt pd < sevenDaysAgo ∧ status pd ≠ completed) ∧
  (JSDate.LocalTZA (JSDate.LocalTime now - 7 * JSDate.msPerDay) false
     = JSDate.LocalTZA now true →
   sevenDaysAgo = now - 7 * (24 * 60 * 60 * 1000)) ∧
  r.2 = List.length (List.filter (λ entry, stale now entry.2) (pendingPayments this)) ∧
  postPaymentActions r.1 = postPaymentActions this ∧
  (∀ k pd, (k, pd) ∈ pendingPayments this → status pd = completed →
           (k, pd) ∈ pendingPayments r.1).
Proof.
  intros Hnd r. subst r. unfold cleanupOldPayments.
  pose proof (cleanupPayments_loop now [] (pendingPayments this) 0%nat Hnd) as Hloop.
  set (run := foldl _ _ _).
  assert (run = (List.filter (λ entry, negb (stale now entry.2)) (pendingPayments this),
                 List.length (List.filter (λ entry, stale now entry.2)
                                (pendingPayments this)))) as -> by exact Hloop.
  simpl.
  split; [done|]. split; [apply stale_spec|]. split; [apply daysAgo_same_offset|].
  repeat split. intros k pd Hin Hdone.
  apply list_elem_of_In, filter_In. split; [by apply list_elem_of_In|].
  unfold stale. simpl. rewrite Hdone.
  by rewrite (bool_decide_eq_true_2 (completed = completed)), andb_false_r.
Qed.

(** X10. After a [payment.captured] webhook for a stored order, the
    completed record is among [getCompletedPaymentsByPhoneNumber] of the
    phone of the order. *)
Theorem captured_order_is_listed_completed now k e this pd :
  JSMap.get (pendingPayments this) k = Some pd →
  markCompleted now (id e) e pd ∈
    getCompletedPaymentsByPhoneNumber (phoneNumber pd)
      (updatePaymentFromWebhook now k e this).
Proof.
  intros Hget. unfold updatePaymentFromWebhook, getCompletedPaymentsByPhoneNumber.
  rewrite Hget. simpl.
  apply list_elem_of_In, filter_In. split.
  - apply list_elem_of_In. unfold JSMap.values.
    apply list_elem_of_fmap. eexists (k, _). split; [done|].
    apply jsmap_get_Some_elem, jsmap_get_set_eq.
  - simpl. by rewrite String.eqb_refl.
Qed.

End PaymentManagerMore.

(** ** The message handlers, continued *)

(** *** What no handler changes

    A relation between the world before and the world after that holds
    across each primitive step of the handlers (a message sent to the
    phone, an assignment to the conversation, an order minted) and is
    reflexive and transitive, holds across every handler, whatever the
    collaborators answer. *)

Section HandlerFrames.
Import GeminiColorAnalyzer ConversationManager JSString Server.
Context `{JSString.Prototype}.
Variable ext : External.
Variable phone : string.
Variable R : World → World → Prop.
Hypothesis R_refl : ∀ w, R w w.
Hypothesis R_trans : ∀ w1 w2 w3, R w1 w2 → R w2 w3 → R w1 w3.
Hypothesis R_send : ∀ msg w, R w (sendTextMessage ext phone msg w).2.
Hypothesis R_state : ∀ st w, R w (assign (set_state st) w).2.
Hypothesis R_analysis : ∀ a w, R w (assign (set_analysis a) w).2.
Hypothesis R_paymentLink : ∀ l w, R w (assign (set_paymentLink l) w).2.
Hypothesis R_pdfGenerated : ∀ w, R w (assign (set_pdfGenerated true) w).2.
Hypothesis R_order : ∀ a w, R w (createPaymentLink ext phone a w).2.

Local Abbreviation frames h := (∀ w, R w (h w).2).

Lemma frames_ret {A} (a : A) : frames (mret a : Handler A).
Proof. intros w. apply R_refl. Qed.

Lemma frames_throw {A} e : frames (throw (A:=A) e : Handler A).
Proof. intros w. apply R_refl. Qed.

Lemma frames_await {A} (c : Completion A) : frames (await c).
Proof. intros w. apply R_refl. Qed.

Lemma frames_getConversationObject : frames getConversationObject.
Proof. intros w. apply R_refl. Qed.

Lemma frames_getPaymentManager : frames getPaymentManager.
Proof. intros w. apply R_refl. Qed.

Lemma frames_bind {A B} (m : Handler A) (f : A → Handler B) :
  frames m → (∀ a, frames (f a)) → frames (m ≫= f).
Proof.
  intros Hm Hf w. unfold mbind, Handler_bind.
  specialize (Hm w). destruct (m w) as [[a|e] w1]; simpl in *; [|done].
  by apply (R_trans _ w1), Hf.
Qed.

Lemma frames_try_catch {A} (body : Handler A) (handler : JSError → Handler A) :
  frames body → (∀ e, frames (handler e)) → frames (try_catch body handler).
Proof.
  intros Hb Hh w. unfold try_catch.
  specialize (Hb w). destruct (body w) as [[a|e] w1]; simpl in *; [done|].
  by apply (R_trans _ w1), Hh.
Qed.

Lemma frames_sendAnalysisResults a : frames (sendAnalysisResults ext phone a).
Proof.
  unfold sendAnalysisResults, whenNonEmpty, sendResultsOptions.
  repeat first
    [ apply R_send | apply frames_ret
    | apply frames_bind; [|intros ?]
    | case_match ].
Qed.

Ltac frame :=
  repeat first
    [ apply frames_ret | apply frames_throw | apply frames_await
    | apply frames_getConversationObject | apply frames_getPaymentManager
    | apply R_send | apply R_state | apply R_analysis | apply R_paymentLink
    | apply R_pdfGenerated | apply R_order
    | apply frames_sendAnalysisResults
    | apply frames_bind; [|intros ?]
    | apply frames_try_catch; [|intros ?]
    | case_match ].

Lemma frames_handlePDFRequest : frames (handlePDFRequest ext phone).
Proof. unfold handlePDFRequest. frame. Qed.

Lemma frames_resetAnalysis : frames (resetAnalysis ext phone).
Proof. unfold resetAnalysis, sendGuideMessage. frame. Qed.

Lemma frames_shareResults : frames (shareResults ext phone).
Proof. unfold shareResults. frame. Qed.

Lemma frames_checkPaymentStatus : frames (checkPaymentStatus ext phone).
Proof. unfold checkPaymentStatus. frame. Qed.

Lemma frames_handleTextMessage text : frames (handleTextMessage ext phone text).
Proof.
  unfold handleTextMessage. cbv zeta.
  apply frames_bind; [apply frames_getConversationObject|]. intros c.
  unfold sendWelcomeMessage, sendGuideMessage, sendPhotoInstructions,
    sendResultsOptions.
  repeat case_match;
    first [ apply frames_handlePDFRequest | apply frames_resetAnalysis
          | apply frames_shareResults | apply frames_checkPaymentStatus
          | frame ].
Qed.

Lemma frames_processImage image : frames (processImage ext phone image).
Proof. unfold processImage. cbv zeta. frame. Qed.

Lemma frames_handleImageMessage image : frames (handleImageMessage ext phone image).
Proof.
  unfold handleImageMessage.
  apply frames_bind; [apply frames_getConversationObject|]. intros c.
  case_match; [apply R_send|].
  apply frames_try_catch; [apply frames_processImage|intros ?; frame].
Qed.

Lemma frames_handleInteractiveMessage interactive :
  frames (handleInteractiveMessage ext phone interactive).
Proof.
  unfold handleInteractiveMessage, sendPhotoInstructions.
  destruct interactive as [i|]; [|apply frames_throw]. cbv zeta.
  repeat case_match;
    first [ apply frames_handlePDFRequest | apply frames_resetAnalysis
          | apply frames_shareResults | frame ].
Qed.

Lemma frames_dispatch message :
  from message = phone → frames (dispatch ext message).
Proof.
  intros Hfrom. unfold dispatch. rewrite Hfrom. cbv zeta.
  repeat case_match;
    first [ apply frames_handleTextMessage | apply frames_handleImageMessage
          | apply frames_handleInteractiveMessage | apply frames_throw
          | apply R_send ].
Qed.

End HandlerFrames.

(** *** What a message leaves alone *)

Section MessageFrames.
Import GeminiColorAnalyzer ConversationManager JSString Server.
Context `{JSString.Prototype}.
Implicit Types (ext : External) (w : World) (c : Conversation).

(** Across a handler run for [phone]: the conversation keeps its phone
    number, creation time, counters and user, and stays a paid one if it
    was; no post-payment action runs; an order is untouched unless its id
    is the one Razorpay mints; the messages out are the old ones followed
    by messages to [phone]. *)
Local Abbreviation kept ext phone w w' :=
  ((phoneNumber (conversation w') = phoneNumber (conversation w) ∧
    createdAt (conversation w') = createdAt (conversation w) ∧
    messageCount (conversation w') = messageCount (conversation w) ∧
    lastActive (conversation w') = lastActive (conversation w) ∧
    userInfo (conversation w') = userInfo (conversation w) ∧
    (pdfGenerated (conversation w) = true → pdfGenerated (conversation w') = true)) ∧
   PaymentManager.postPaymentActions (paymentManager (services w'))
     = PaymentManager.postPaymentActions (paymentManager (services w)) ∧
   (∀ k, ordersCreate ext ≠ Returned k →
         JSMap.get (PaymentManager.pendingPayments (paymentManager (services w'))) k
         = JSMap.get (PaymentManager.pendingPayments (paymentManager (services w))) k) ∧
   (∃ new, outbox (services w') = outbox (services w) ++ new ∧
           Forall (λ m, m.1 = phone) new)).

Lemma kept_refl ext phone w : kept ext phone w w.
Proof.
  repeat split; try done. exists []. by rewrite app_nil_r.
Qed.

Lemma kept_trans ext phone w1 w2 w3 :
  kept ext phone w1 w2 → kept ext phone w2 w3 → kept ext phone w1 w3.
Proof.
  intros ((?&?&?&?&?&?)&?&Hk&(n1&Hn1&?)) ((?&?&?&?&?&?)&?&Hk'&(n2&Hn2&?)).
  repeat split; try congruence; try by auto.
  - intros k Hne. rewrite Hk' by done. by apply Hk.
  - exists (n1 ++ n2). rewrite Hn2, Hn1, app_assoc.
    split; [done|]. by apply Forall_app.
Qed.

Lemma kept_send ext phone msg w :
  kept ext phone w (sendTextMessage ext phone msg w).2.
Proof.
  unfold sendTextMessage. simpl.
  destruct (sendOk ext _); simpl; repeat split; try done.
  - exists [(phone, msg)]. split; [done|]. by apply Forall_singleton.
  - exists []. by rewrite app_nil_r.
Qed.

Lemma kept_order ext phone a w :
  kept ext phone w (createPaymentLink ext phone a w).2.
Proof.
  unfold createPaymentLink, PaymentManager.createPaymentLink. simpl.
  destruct (ordersCreate ext) as [oid|]; simpl; repeat split; try done.
  - intros k Hk. apply jsmap_get_set_ne. congruence.
  - exists []. by rewrite app_nil_r.
  - exists []. by rewrite app_nil_r.
Qed.

Lemma kept_dispatch ext message w :
  kept ext (from message) w (dispatch ext message w).2.
Proof.
  apply (frames_dispatch ext (from message) (λ w w', kept ext (from message) w w')).
  - apply kept_refl.
  - apply kept_trans.
  - apply kept_send.
  - intros st w0. simpl. repeat split; try done. exists []. by rewrite app_nil_r.
  - intros a w0. simpl. repeat split; try done. exists []. by rewrite app_nil_r.
  - intros l w0. simpl. repeat split; try done. exists []. by rewrite app_nil_r.
  - intros w0. simpl. repeat split; try done. exists []. by rewrite app_nil_r.
  - apply kept_order.
  - done.
Qed.

End MessageFrames.

(** *** A message, on the server *)

Section MessageOnServer.
Import GeminiColorAnalyzer ConversationManager JSString Server.
Context `{JSString.Prototype} `{JSDate.TimeZone}.
Implicit Types (ext : External) (s : ServerState) (c : Conversation).

(** [handleMessage], step by step. *)
Lemma handleMessage_steps ext message contactName s :
  let phone := from message in
  let m0 := (openSession ext message contactName s).2 in
  let rw := dispatch ext message (handlerWorld ext message contactName s) in
  let m1 := {| conversations := <[phone := conversation rw.2]> (conversations m0) |} in
  handleMessage ext message contactName s =
    match rw.1 with
    | Returned _ =>
        (Returned tt,
         {| conversationManager :=
              saveConversation (now ext) phone (conversation rw.2) m1;
            shared := services rw.2 |})
    | Thrown _ =>
        ((sendTextMessage ext phone GenericError rw.2).1,
         {| conversationManager := m1;
            shared := services (sendTextMessage ext phone GenericError rw.2).2 |})
    end.
Proof.
  simpl. unfold handleMessage, handlerWorld, openSession.
  destruct (getConversation (from message) (conversationManager s)); simpl.
  - destruct (dispatch ext message _) as [[[]|e] w]; simpl; [done|].
    by destruct (sendTextMessage ext (from message) GenericError w).
  - destruct (dispatch ext message _) as [[[]|e] w]; simpl; [done|].
    by destruct (sendTextMessage ext (from message) GenericError w).
Qed.

(** The session of the sender is in the opened manager, and nothing else
    has changed in it. *)
Lemma openSession_spec ext message contactName s :
  let r := openSession ext message contactName s in
  conversations r.2 !! from message = Some r.1 ∧
  (∀ k, k ≠ from message →
        conversations r.2 !! k = conversations (conversationManager s) !! k) ∧
  (∀ c, getConversation (from message) (conversationManager s) = Some c → r.1 = c) ∧
  (getConversation (from message) (conversationManager s) = None →
   phoneNumber r.1 = from message ∧ createdAt r.1 = now ext ∧
   messageCount r.1 = 0 ∧ pdfGenerated r.1 = false ∧ state r.1 = initial).
Proof.
  simpl. unfold openSession, getConversation.
  destruct (conversations (conversationManager s) !! from message) eqn:Hc; simpl.
  - repeat split; try done. by intros ? [= ->].
  - repeat split; try done.
    + apply lookup_insert_eq.
    + intros k Hk. by apply lookup_insert_ne.
Qed.

(** The session of [k] after [handleMessage]. *)
Lemma handleMessage_lookup ext message contactName s k :
  let rw := dispatch ext message (handlerWorld ext message contactName s) in
  getConversation k (conversationManager (handleMessage ext message contactName s).2) =
    if decide (from message = k) then
      Some (match rw.1 with
            | Returned _ =>
                set_messageCount (messageCount (conversation rw.2) + 1)
                  (set_lastActive (Some (now ext)) (conversation rw.2))
            | Thrown _ => conversation rw.2
            end)
    else getConversation k (conversationManager s).
Proof.
  simpl. rewrite handleMessage_steps.
  destruct (openSession_spec ext message contactName s) as (_ & Hother & _).
  unfold getConversation.
  destruct (dispatch ext message _) as [[[]|e] w]; simpl;
    case_decide as Hk; subst; rewrite ?lookup_insert_eq; try done.
  - rewrite !lookup_insert_ne by done. by apply Hother.
  - rewrite lookup_insert_ne by done. by apply Hother.
Qed.

(** X11. Whatever the collaborators answer, [handleMessage] touches no
    session but the sender's, runs no post-payment action, leaves every
    order untouched except the one whose id Razorpay mints during the
    call, and only adds messages to the outbox, all of them addressed to
    the sender. *)
Theorem handleMessage_touches_only_sender ext message contactName s :
  let s' := (handleMessage ext message contactName s).2 in
  (∀ k, k ≠ from message →
        getConversation k (conversationManager s') =
        getConversation k (conversationManager s)) ∧
  PaymentManager.postPaymentActions (paymentManager (shared s'))
    = PaymentManager.postPaymentActions (paymentManager (shared s)) ∧
  (∀ k, ordersCreate ext ≠ Returned k →
        JSMap.get (PaymentManager.pendingPayments (paymentManager (shared s'))) k
        = JSMap.get (PaymentManager.pendingPayments (paymentManager (shared s))) k) ∧
  (∃ new, outbox (shared s') = outbox (shared s) ++ new ∧
          Forall (λ m, m.1 = from message) new).
Proof.
  simpl. split.
  { intros k Hk. rewrite handleMessage_lookup. by case_decide. }
  rewrite handleMessage_steps.
  set (w0 := handlerWorld ext message contactName s).
  pose proof (kept_dispatch ext message w0) as Hd.
  destruct (dispatch ext message w0) as [[[]|e] w].
  - destruct Hd as (_ & ? & ? & ?). done.
  - pose proof (kept_trans ext (from message) w0 w _ Hd
                  (kept_send ext (from message) GenericError w))
      as (_ & ? & ? & ?).
    done.
Qed.

(** X12. Every session the server holds after any sequence of messages and
    Razorpay webhooks, from start-up, is stored under its own phone
    number. *)
Theorem run_wellKeyed `{PaymentManager.NodeRuntime} events :
  wellKeyed (conversationManager (run events)).
Proof.
  unfold run.
  assert (wellKeyed (conversationManager boot)) as Hboot.
  { intros k c Hk. simpl in Hk. by rewrite lookup_empty in Hk. }
  revert Hboot. generalize boot. induction events as [|ev events IH];
    intros s Hs; simpl; [done|].
  apply IH. destruct ev as [ext message contactName|env now body signature];
    simpl; [|done].
  intros k c Hk.
  pose proof (handleMessage_lookup ext message contactName s k) as Hl.
  simpl in Hl. unfold getConversation in Hl. rewrite Hl in Hk. clear Hl.
  case_decide as Hfrom; [|by apply Hs]. subst k.
  pose proof (kept_dispatch ext message (handlerWorld ext message contactName s))
    as ((Hphone & _) & _).
  assert (phoneNumber (conversation (handlerWorld ext message contactName s))
          = from message) as Hopen.
  { simpl. destruct (openSession_spec ext message contactName s)
      as (_ & _ & Hold & Hnew).
    destruct (getConversation (from message) (conversationManager s)) as [c0|] eqn:Hc.
    - rewrite (Hold c0 eq_refl). by apply Hs.
    - by apply Hnew. }
  injection Hk as <-.
  destruct (dispatch ext message _) as [[[]|e] w]; simpl in *; congruence.
Qed.

(** X13. A session whose PDF has been generated keeps that mark through
    every later message of any sender, so the clean-up never removes it. *)
Theorem paid_session_stays ext message contactName s k c now' :
  getConversation k (conversationManager s) = Some c →
  pdfGenerated c = true →
  ∃ c', getConversation k
          (conversationManager (handleMessage ext message contactName s).2) = Some c' ∧
        pdfGenerated c' = true ∧
        expired now' c' = false.
Proof.
  intros Hc Hpdf. rewrite handleMessage_lookup. simpl.
  assert (∀ c', pdfGenerated c' = true → expired now' c' = false) as Hkeep.
  { intros c' Hc'. unfold expired. rewrite Hc'. apply andb_false_r. }
  case_decide as Hfrom; [|by eauto].
  pose proof (kept_dispatch ext message (handlerWorld ext message contactName s))
    as ((_ & _ & _ & _ & _ & Hstay) & _).
  assert (pdfGenerated (conversation (handlerWorld ext message contactName s)) = true)
    as Hopen.
  { simpl. destruct (openSession_spec ext message contactName s) as (_ & _ & Hold & _).
    subst k. by rewrite (Hold c Hc). }
  specialize (Hstay Hopen).
  destruct (dispatch ext message _) as [[[]|e] w]; simpl in *; eauto.
Qed.

End MessageOnServer.

(** ** The conversation manager, continued *)

Section ConversationManagerMore.
Import ConversationManager.
Context `{JSDate.TimeZone}.
Implicit Types (this : Self) (m : gmap string Conversation) (c : Conversation)
  (l : list Conversation).

(** The map built from an array in which no phone number occurs twice. *)
Lemma mapOfArray_loop l m :
  NoDup (phoneNumber <$> l) →
  (∀ c, c ∈ l →
        foldl (λ m conv, <[phoneNumber conv := conv]> m) m l !! phoneNumber c = Some c) ∧
  (∀ k, k ∉ phoneNumber <$> l →
        foldl (λ m conv, <[phoneNumber conv := conv]> m) m l !! k = m !! k).
Proof.
  revert m. induction l as [|x l IH]; intros m Hnd; simpl.
  - split; [intros c Hc; by apply elem_of_nil in Hc | done].
  - rewrite fmap_cons in Hnd. apply NoDup_cons in Hnd as [Hx Hnd].
    destruct (IH (<[phoneNumber x := x]> m) Hnd) as [Hin Hout]. split.
    + intros c Hc. apply elem_of_cons in Hc as [->|Hc]; [|by apply Hin].
      rewrite Hout by done. apply lookup_insert_eq.
    + intros k Hk. apply not_elem_of_cons in Hk as [Hne Hk].
      rewrite Hout by done. by apply lookup_insert_ne.
Qed.

(** X14. Saving and loading is a round trip on a map in which every
    session is stored under its own phone number: loading the array of its
    sessions, in whatever order they were written, gives the map back,
    whatever the map was at the time of loading. *)
Theorem load_after_save_restores this this' l :
  wellKeyed this →
  valuesArray this l →
  loadConversations (Array l) this' = this.
Proof.
  intros Hkeyed Hl. unfold valuesArray in Hl.
  destruct this as [m]. simpl in *. f_equal.
  assert (phoneNumber <$> (map_to_list m).*2 = (map_to_list m).*1) as Hphones.
  { rewrite <- list_fmap_compose. apply list_fmap_ext.
    intros i [k c] Hi. simpl. apply (Hkeyed k c).
    apply elem_of_map_to_list. by apply list_elem_of_lookup_2 in Hi. }
  assert (NoDup (phoneNumber <$> l)) as Hnd.
  { rewrite Hl, Hphones. apply NoDup_fst_map_to_list. }
  destruct (mapOfArray_loop l ∅ Hnd) as [Hin Hout].
  apply map_eq. intros k. unfold mapOfArray.
  destruct (m !! k) as [c|] eqn:Hk.
  - rewrite <- (Hkeyed k c Hk). apply Hin. rewrite Hl.
    apply list_elem_of_fmap. exists (k, c). split; [done|].
    by apply elem_of_map_to_list.
  - rewrite Hout; [apply lookup_empty|].
    rewrite Hl, Hphones. intros Hin'.
    apply list_elem_of_fmap in Hin' as ([k' c'] & -> & Hkc).
    apply elem_of_map_to_list in Hkc. simpl in Hk. congruence.
Qed.

(** X15. [deleteUserData] answers whether the phone had a session; after
    it the phone has none and every other session is as before; a second
    call answers false and changes nothing. *)
Theorem deleteUserData_forgets phone this :
  let r := deleteUserData phone this in
  (r.1 = true ↔ is_Some (getConversation phone this)) ∧
  getConversation phone r.2 = None ∧
  (∀ k, k ≠ phone → getConversation k r.2 = getConversation k this) ∧
  deleteUserData phone r.2 = (false, r.2).
Proof.
  simpl. unfold deleteUserData, getConversation. simpl. repeat split.
  - by intros ?%bool_decide_eq_true.
  - intros ?. by apply bool_decide_eq_true.
  - apply lookup_delete_eq.
  - intros k Hk. by apply lookup_delete_ne.
  - f_equal.
    + apply bool_decide_eq_false. rewrite lookup_delete_eq. by intros [? ?].
    + f_equal. apply delete_id, lookup_delete_eq.
Qed.

(** What [cleanupOldConversations] leaves of each session. *)
Lemma cleanup_lookup now this k :
  conversations (after (cleanupOldConversations now this)) !! k =
    match conversations this !! k with
    | Some c => if expired now c then None else Some c
    | None => None
    end.
Proof.
  simpl. destruct (conversations this !! k) as [c|] eqn:Hk.
  - destruct (expired now c) eqn:Hex.
    + apply (cleanup_loop_removed now _ _ _ k c); [|done].
      by apply elem_of_map_to_list.
    + rewrite cleanup_loop_kept; [done|].
      intros c' Hc'. apply elem_of_map_to_list in Hc'. congruence.
  - by apply cleanup_loop_absent.
Qed.

Lemma cleanup_count now this :
  (size (conversations (after (cleanupOldConversations now this)))
   + cleanedCount (cleanupOldConversations now this)
   = size (conversations this))%nat.
Proof.
  pose proof (cleanup_loop_count now (map_to_list (conversations this))
                (conversations this) 0%nat) as Hcount.
  simpl in *. rewrite Hcount; [lia| |].
  - apply NoDup_fst_map_to_list.
  - intros k c. apply elem_of_map_to_list.
Qed.

(** X16. Cleaning up twice at the same time is cleaning up once: the second
    run removes nothing, counts nothing and does not save. And a session
    with an analysis, with a generated PDF, with an invalid [lastActive],
    or last active at or after [thirtyDaysAgo] is never removed, where
    [thirtyDaysAgo] is what [setDate(getDate() - 30)] makes of now in the
    local time of the server: the local time of now moved back by thirty
    days and read in the zone again. *)
Theorem cleanupOldConversations_idempotent now this :
  let r1 := cleanupOldConversations now this in
  let r2 := cleanupOldConversations now (after r1) in
  let thirtyDaysAgo := JSDate.UTC (JSDate.LocalTime now - 30 * JSDate.msPerDay) in
  after r2 = after r1 ∧ cleanedCount r2 = 0%nat ∧ saved r2 = false ∧
  (∀ k c, conversations this !! k = Some c →
          is_Some (analysis c) ∨ pdfGenerated c = true ∨ lastActive c = None ∨
          (∃ t, lastActive c = Some t ∧ thirtyDaysAgo ≤ t) →
          conversations (after r1) !! k = Some c).
Proof.
  intros r1 r2 thirtyDaysAgo'.
  assert (after r2 = after r1) as Hsame.
  { subst r1 r2. destruct (after (cleanupOldConversations now (after _))) as [m2] eqn:H2.
    destruct (after (cleanupOldConversations now this)) as [m1] eqn:H1.
    f_equal. apply map_eq. intros k.
    pose proof (cleanup_lookup now {| conversations := m1 |} k) as Hk2.
    rewrite H2 in Hk2. simpl in Hk2. rewrite Hk2.
    pose proof (cleanup_lookup now this k) as Hk1.
    rewrite H1 in Hk1. simpl in Hk1.
    destruct (m1 !! k) as [c|] eqn:Hm1; [|done].
    destruct (conversations this !! k) as [c0|]; [|done].
    destruct (expired now c0) eqn:Hex; [done|]. injection Hk1 as ->.
    by rewrite Hex. }
  assert (cleanedCount r2 = 0%nat) as Hzero.
  { pose proof (cleanup_count now (after r1)) as Hc. fold r2 in Hc.
    rewrite Hsame in Hc. lia. }
  split; [done|]. split; [done|]. split.
  - subst r2. simpl in *. by rewrite Hzero.
  - intros k c Hk Hwhy. subst r1. rewrite cleanup_lookup, Hk.
    assert (expired now c = false) as ->; [|done].
    unfold expired. destruct Hwhy as [Ha|[Hp|[Hl|(t & Hl & Ht)]]].
    + rewrite (bool_decide_eq_true_2 _ Ha). simpl. by rewrite andb_false_r.
    + rewrite Hp. apply andb_false_r.
    + by rewrite Hl.
    + subst thirtyDaysAgo'. unfold thirtyDaysAgo, JSDate.daysAgo.
      rewrite Hl, bool_decide_eq_false_2 by lia. done.
Qed.

End ConversationManagerMore.

(** ** The analyzer *)

Section GeminiColorAnalyzerMore.
Import GeminiColorAnalyzer.

(** X17. [validateImage] accepts exactly the images of at most
    5 * 1024 * 1024 bytes (the bound included, and a size of 0 too) whose
    type is empty or one of [image/jpeg], [image/png], [image/webp],
    compared as written. *)
Theorem validateImage_accepts size type :
  validateImage size type = Valid ↔
  size ≤ 5242880 ∧ (type = EmptyString ∨ type ∈ validTypes).
Proof.
  unfold validateImage. cbv zeta.
  destruct (decide (size ≤ 5242880)) as [Hle|Hgt].
  - rewrite (bool_decide_eq_false_2 (size > 5 * 1024 * 1024)) by lia.
    rewrite andb_false_r.
    destruct (String.eqb_spec type EmptyString) as [->|Hne]; simpl; [by split; auto|].
    case_bool_decide as Hin; simpl.
    + split; auto.
    + split; [done|]. intros [_ [?|?]]; done.
  - rewrite (bool_decide_eq_true_2 (size ≠ 0)) by lia.
    rewrite (bool_decide_eq_true_2 (size > 5 * 1024 * 1024)) by lia.
    simpl. split; [done|]. intros [? _]. lia.
Qed.

(** X18. [analyzeFromBuffer] answers a success exactly when the API key is
    set, the image passes [validateImage] and the Gemini request yields an
    analysis; the analysis answered is that one. An image that does not
    pass is refused whatever Gemini would have answered. *)
Theorem analyzeFromBuffer_success key reply buffer mimeType a :
  analyzeFromBuffer key reply buffer mimeType = AnalysisSuccess a ↔
  truthy key = true ∧
  validateImage (Z.of_nat (List.length buffer)) mimeType = Valid ∧
  reply = GeminiAnalysis a.
Proof.
  unfold analyzeFromBuffer, analyzeColors.
  destruct (validateImage _ _) eqn:Hv.
  - destruct (truthy key); simpl.
    + destruct reply as [a'|e].
      * split; [by intros [= ->] | by intros (_ & _ & [= ->])].
      * split; [by repeat case_match | by intros (_ & _ & ?)].
    + split; [done | by intros (? & _)].
  - split; [done | by intros (_ & ? & _)].
Qed.

End GeminiColorAnalyzerMore.

(** ** The funnel, step by step *)

Section FunnelSteps.
Import GeminiColorAnalyzer ConversationManager JSString Server.
Context `{JSString.Prototype}.
Implicit Types (ext : External) (w : World) (c : Conversation).

Ltac open_handler :=
  unfold mbind, mret, Handler_bind, Handler_ret, try_catch, assign, await, throw,
    getConversationObject, getPaymentManager in *;
  simpl in *.

(** X19. However its sends go, [handlePDFRequest] takes a session that is
    not waiting for a payment to [payment_pending] only when the session
    has an analysis and Razorpay has minted an order that is now stored,
    in status [created], for this phone and this analysis, and whose link
    is the session's [paymentLink]. *)
Theorem payment_pending_has_order ext phone w :
  let w' := (handlePDFRequest ext phone w).2 in
  state (conversation w) ≠ payment_pending →
  state (conversation w') = payment_pending →
  ∃ a oid pd,
    analysis (conversation w) = Some a ∧
    ordersCreate ext = Returned oid ∧
    JSMap.get (PaymentManager.pendingPayments (paymentManager (services w'))) oid
      = Some pd ∧
    PaymentManager.status pd = PaymentManager.created ∧
    PaymentManager.phoneNumber pd = phone ∧
    PaymentManager.analysis pd = a ∧
    paymentLink (conversation w')
      = Some (PaymentManager.baseUrl (processEnv ext) +:+ "/pay/" +:+ oid).
Proof.
  intros w' Hbefore. subst w'.
  unfold handlePDFRequest, createPaymentLink, sendTextMessage. open_handler.
  destruct (analysis (conversation w)) as [a|] eqn:Ha; simpl.
  2:{ destruct (sendOk ext _); simpl; intros; done. }
  unfold PaymentManager.createPaymentLink.
  destruct (ordersCreate ext) as [oid|] eqn:Ho; simpl.
  2:{ destruct (sendOk ext _); simpl; intros; done. }
  destruct (sendOk ext (sendCalls (services w))); simpl.
  2:{ destruct (sendOk ext _); simpl; intros; done. }
  destruct (sendOk ext (S (sendCalls (services w)))); simpl.
  2:{ destruct (sendOk ext _); simpl; intros; done. }
  intros _. exists a, oid. eexists. split; [done|]. split; [done|].
  split; [apply jsmap_get_set_eq|]. done.
Qed.

(** *** With a gateway that accepts every call *)

Section GatewayAccepts.
Variable ext : External.
Hypothesis accepted : ∀ n, sendOk ext n = true.

(** A handler that returns, wherever it starts. *)
Local Abbreviation returns h := (∀ w, ∃ a, (h w).1 = Returned a).

Lemma returns_send to msg : returns (sendTextMessage ext to msg).
Proof. intros w. unfold sendTextMessage. simpl. rewrite accepted. by eexists. Qed.

Lemma returns_assign f : returns (assign f).
Proof. intros w. by eexists. Qed.

Lemma returns_bind {A B} (m : Handler A) (f : A → Handler B) :
  returns m → (∀ a, returns (f a)) → returns (m ≫= f).
Proof.
  intros Hm Hf w. unfold mbind, Handler_bind.
  destruct (Hm w) as [a Ha]. destruct (m w) as [r w1]. simpl in Ha. subst r.
  apply Hf.
Qed.

Lemma returns_try_catch {A} (body : Handler A) (handler : JSError → Handler A) :
  (∀ e, returns (handler e)) → returns (try_catch body handler).
Proof.
  intros Hh w. unfold try_catch. destruct (body w) as [[a|e] w1]; [by eexists|].
  apply Hh.
Qed.

Ltac returning :=
  repeat first
    [ apply returns_send | apply returns_assign
    | apply returns_try_catch; intros ?
    | apply returns_bind; [|intros ?]
    | (intros ?; by eexists)
    | case_match ].

Lemma returns_handleTextMessage phone text : returns (handleTextMessage ext phone text).
Proof.
  unfold handleTextMessage, handlePDFRequest, resetAnalysis, shareResults,
    checkPaymentStatus, sendWelcomeMessage, sendGuideMessage,
    sendPhotoInstructions, sendResultsOptions, getConversationObject.
  cbv zeta. returning.
Qed.

Lemma returns_handleImageMessage phone image :
  returns (handleImageMessage ext phone image).
Proof. unfold handleImageMessage, getConversationObject. returning. Qed.

Lemma returns_handleInteractiveMessage phone i :
  returns (handleInteractiveMessage ext phone (Some i)).
Proof.
  unfold handleInteractiveMessage, handlePDFRequest, resetAnalysis, shareResults,
    sendPhotoInstructions, sendGuideMessage, getConversationObject.
  cbv zeta. returning.
Qed.

Lemma dispatch_unhandled message w :
  unhandled message = true →
  dispatch ext message w = (Thrown (Error "Cannot read properties of undefined"), w).
Proof.
  unfold unhandled, dispatch, handleInteractiveMessage. cbv zeta.
  repeat case_match; simpl; try done.
  all: try (intros Hb; apply negb_true_iff, bool_decide_eq_false in Hb;
            exfalso; apply Hb; by eexists).
Qed.

Lemma dispatch_handled message w :
  unhandled message = false → (dispatch ext message w).1 = Returned tt.
Proof.
  assert (∀ (h : Handler unit), returns h → (h w).1 = Returned tt) as Hret.
  { intros h Hh. destruct (Hh w) as [[] Ha]. done. }
  unfold unhandled, dispatch. cbv zeta.
  repeat case_match; simpl; try done; intros Hb.
  all: first [ apply Hret, returns_handleTextMessage
             | apply Hret, returns_handleImageMessage
             | apply Hret, returns_send
             | apply negb_false_iff, bool_decide_eq_true in Hb;
               destruct Hb as [i Hi]; rewrite Hi;
               apply Hret, returns_handleInteractiveMessage ].
Qed.


(** [checkPaymentStatus] on a phone whose oldest order is completed. *)
Lemma checkPaymentStatus_confirms phone w pd :
  PaymentManager.getPaymentByPhoneNumber phone (paymentManager (services w)) = Some pd →
  PaymentManager.status pd = PaymentManager.completed →
  let w' := (checkPaymentStatus ext phone w).2 in
  state (conversation w') = completed ∧
  pdfGenerated (conversation w') = true ∧
  paymentManager (services w') = paymentManager (services w).
Proof.
  intros Hfound Hdone. simpl. unfold checkPaymentStatus. open_handler.
  rewrite !sendTextMessage_accepted by done. simpl. rewrite Hfound.
  rewrite bool_decide_eq_true_2 by done. simpl.
  rewrite !sendTextMessage_accepted by done. simpl. done.
Qed.


End GatewayAccepts.

(** X22. The payment check of [server.js] asks for the oldest order of the
    phone. So when that order is completed, a further purchase is
    confirmed at once: after [handlePDFRequest] has stored a new order,
    [checkPaymentStatus] (with a gateway that accepts its calls) sets the
    session to [completed] and marks the PDF as generated, while the new
    order is still in status [created]. *)
Theorem old_paid_order_confirms_new_purchase ext1 ext2 phone w a oid pd :
  (∀ n, sendOk ext2 n = true) →
  analysis (conversation w) = Some a →
  ordersCreate ext1 = Returned oid →
  JSMap.get (PaymentManager.pendingPayments (paymentManager (services w))) oid = None →
  PaymentManager.getPaymentByPhoneNumber phone (paymentManager (services w)) = Some pd →
  PaymentManager.status pd = PaymentManager.completed →
  let w1 := (handlePDFRequest ext1 phone w).2 in
  let w2 := (checkPaymentStatus ext2 phone w1).2 in
  PaymentManager.statusOf (paymentManager (services w2)) oid
    = Some PaymentManager.created ∧
  state (conversation w2) = completed ∧
  pdfGenerated (conversation w2) = true.
Proof.
  intros Hacc Ha Ho Hfresh Hfound Hdone w1 w2.
  assert (paymentManager (services w1) =
          (PaymentManager.createPaymentLink (processEnv ext1) (now ext1)
             (Returned oid) phone a (paymentManager (services w))).2) as Hpm.
  { subst w1. unfold handlePDFRequest, createPaymentLink, sendTextMessage.
    open_handler. rewrite Ha. simpl. rewrite Ho. simpl.
    destruct (sendOk ext1 (sendCalls (services w))); simpl;
      [destruct (sendOk ext1 (S (sendCalls (services w)))); simpl|];
      try done; by destruct (sendOk ext1 _). }
  assert (PaymentManager.getPaymentByPhoneNumber phone (paymentManager (services w1))
          = Some pd) as Hfound1.
  { rewrite Hpm. unfold PaymentManager.getPaymentByPhoneNumber, JSMap.values in *.
    simpl. rewrite (jsmap_set_fresh _ _ _ Hfresh), fmap_app.
    by apply find_app_found. }
  destruct (checkPaymentStatus_confirms ext2 Hacc phone w1 pd Hfound1 Hdone)
    as (Hst & Hpdf & Hsame).
  fold w2 in Hst, Hpdf, Hsame. repeat split; try done.
  rewrite Hsame, Hpm. unfold PaymentManager.statusOf. simpl.
  by rewrite jsmap_get_set_eq.
Qed.

End FunnelSteps.

(** ** The Aisensy webhook route *)

Section AisensyWebhookFacts.
Import GeminiColorAnalyzer ConversationManager Server.
Context `{JSString.Prototype}.
Implicit Types (ext : External) (s : ServerState) (body : AisensyWebhook.Body)
  (m : IncomingMessage).

(** The message the route builds never has an [interactive] part. *)
Lemma build_interactive now single msgData m contactName :
  AisensyWebhook.build now single msgData = AisensyWebhook.Incoming m contactName →
  interactive m = None.
Proof.
  unfold AisensyWebhook.build.
  destruct (AisensyWebhook.orElse _ _); [|done]. by intros [= <- <-].
Qed.

Lemma normalise_interactive now body m contactName :
  AisensyWebhook.normalise now body = AisensyWebhook.Incoming m contactName →
  interactive m = None.
Proof.
  unfold AisensyWebhook.normalise. destruct (_ || _); [|done].
  destruct (AisensyWebhook.messages body) as [[|msgData l]|]; [done| |];
    apply build_interactive.
Qed.

(** What [handleMessage] leaves when the handlers only send [msg], and
    when they throw and the error message is sent. *)
Lemma handleMessage_single_reply ext m contactName s msg :
  (∀ n, sendOk ext n = true) →
  (∀ w, dispatch ext m w = sendTextMessage ext (from m) msg w) →
  let r := handleMessage ext m contactName s in
  r.1 = Returned tt ∧
  outbox (shared r.2) = outbox (shared s) ++ [(from m, msg)] ∧
  ∀ c0, getConversation (from m) (conversationManager s) = Some c0 →
        ∃ c', getConversation (from m) (conversationManager r.2) = Some c' ∧
              state c' = state c0 ∧ analysis c' = analysis c0 ∧
              messageCount c' = messageCount c0 + 1.
Proof.
  intros Hacc Hd. simpl. split; [|split].
  - rewrite handleMessage_steps, Hd, sendTextMessage_accepted by done. done.
  - rewrite handleMessage_steps, Hd, sendTextMessage_accepted by done. done.
  - intros c0 Hc0. rewrite handleMessage_lookup, decide_True by done.
    rewrite Hd, sendTextMessage_accepted by done. simpl.
    destruct (openSession_spec ext m contactName s) as (_ & _ & Hold & _).
    rewrite (Hold c0 Hc0). by eexists.
Qed.



(** X25. Which messages reach [handleTextMessage]: those whose [type] is
    [text], and, in the single-message format only, those without a
    [type] whose [messageType] is [text]. So an entry of [body.messages]
    that tells its type by [messageType] alone is not handled as a text,
    and neither is a message without any type, although the route gives it
    the type [text]. *)
Theorem text_reaches_handler now single msgData m contactName :
  AisensyWebhook.build now single msgData = AisensyWebhook.Incoming m contactName →
  (type m = "text" ∧ is_Some (text m)) ↔
  (AisensyWebhook.type msgData = Some "text" ∨
   (single = true ∧ truthy (AisensyWebhook.type msgData) = false ∧
    AisensyWebhook.messageType msgData = Some "text")).
Proof.
  unfold AisensyWebhook.build.
  destruct (AisensyWebhook.orElse (AisensyWebhook.orElse _ _) _); [|done].
  intros [= <- <-]. simpl.
  match goal with |- context [if ?b then Some ?x else None] =>
    assert (is_Some (if b then Some x else None) ↔ b = true) as ->
      by (destruct b; split; [done|by eauto|by intros [? ?]|done]) end.
  rewrite orb_true_iff, andb_true_iff, !bool_decide_eq_true.
  unfold AisensyWebhook.orLiteral, AisensyWebhook.orElse, truthy.
  destruct (AisensyWebhook.type msgData) as [t|]; simpl.
  - destruct (String.eqb_spec t EmptyString) as [->|Hne]; simpl.
    + split.
      * intros [_ [?|[? ?]]]; [done|by right].
      * intros [?|(? & _ & Hmt)]; [done|]. rewrite Hmt. simpl. by auto.
    + destruct (String.eqb_spec t EmptyString); [done|]. simpl. split.
      * intros [-> _]. by left.
      * intros [[= ->]|(_ & ? & _)]; [by auto|done].
  - split.
    + intros [_ [?|[? ?]]]; [done|by right].
    + intros [?|(? & _ & Hmt)]; [done|]. rewrite Hmt. simpl. by auto.
Qed.

End AisensyWebhookFacts.

(** ** The further properties, on concrete data *)

Section FurtherPaymentExamples.
Import GeminiColorAnalyzer PaymentManager Fixtures.
#[local] Existing Instance Fixtures.runtime.
#[local] Existing Instance Fixtures.asciiText.
#[local] Existing Instance Fixtures.kolkata.

(** A forged signature on the browser path. *)
Lemma verifyPayment_fails_closed_witness :
  ∃ error,
    verifyPayment env 7 (Returned (pay1 "captured")) "order_1" "pay_1" "forged"
      (managerWith created)
    = (VerifyFailure error, managerWith created).
Proof.
  apply (verifyPayment_fails_closed env 7 (Returned (pay1 "captured"))
           "order_1" "pay_1" "forged" (managerWith created)).
  right. left. exists "key_secret". split; [reflexivity | vm_compute; discriminate].
Defined.

(** The browser confirms the payment of [order_1]. *)
Lemma verifyPayment_completes_stored_order_witness :
  let r := verifyPayment env 7 (Returned (pay1 "captured")) "order_1" "pay_1"
             "key_secret#order_1|pay_1" (managerWith created) in
  let pd' := markCompleted 7 "pay_1" (pay1 "captured") (order1 created) in
  r.1 = VerifySuccess (Some pd') (pay1 "captured") ∧
  JSMap.get (pendingPayments r.2) "order_1" = Some pd' ∧
  status pd' = completed ∧ paymentId pd' = Some "pay_1" ∧ completedAt pd' = Some 7 ∧
  (∀ k, k ≠ "order_1" →
        JSMap.get (pendingPayments r.2) k
        = JSMap.get (pendingPayments (managerWith created)) k) ∧
  postPaymentActions r.2 = postPaymentActions (managerWith created).
Proof.
  apply (verifyPayment_completes_stored_order env 7 "key_secret" (pay1 "captured")
           "order_1" "pay_1" "key_secret#order_1|pay_1" (managerWith created)
           (order1 created));
    reflexivity.
Defined.

(** [order_1] is captured at 10 and polled at 20, while Razorpay is down. *)
Lemma poll_after_capture_is_noop_witness :
  let s1 := updatePaymentFromWebhook 10 "order_1" (pay1 "captured") (managerWith created) in
  PaymentManager.checkPaymentStatus 20 (Thrown axiosTimeout) (Thrown axiosTimeout)
    "order_1" s1
  = (StatusSuccess completed (markCompleted 10 "pay_1" (pay1 "captured") (order1 created)),
     s1).
Proof.
  apply (poll_after_capture_is_noop 10 20 "order_1" (pay1 "captured")
           (managerWith created) (order1 created)
           (Thrown axiosTimeout) (Thrown axiosTimeout)).
  reflexivity.
Defined.

(** [order_1] is captured at 10 and reported failed at 20. *)
Lemma failed_after_capture_keeps_completion_witness :
  let s1 := updatePaymentFromWebhook 10 "order_1" (pay1 "captured") (managerWith created) in
  let s2 := markPaymentFailed 20 "order_1" (pay1 "failed") s1 in
  ∃ pd2, JSMap.get (pendingPayments s2) "order_1" = Some pd2 ∧
         status pd2 = failed ∧
         failedAt pd2 = Some 20 ∧
         completedAt pd2 = Some 10 ∧
         paymentId pd2 = Some "pay_1" ∧
         failureReason pd2 = Some "Unknown error" ∧
         postPaymentActions s2 = postPaymentActions s1.
Proof.
  apply (failed_after_capture_keeps_completion 10 20 "order_1" (pay1 "captured")
           (pay1 "failed") (managerWith created) (order1 created)).
  reflexivity.
Defined.

(** The phone has paid [order_1]; a second order [order_2] is stored. *)
Lemma getPaymentByPhoneNumber_keeps_oldest_witness :
  getPaymentByPhoneNumber phone
    (PaymentManager.createPaymentLink env 50 (Returned "order_2") phone softAutumn
       (managerWith completed)).2
  = Some (order1 completed).
Proof.
  apply (getPaymentByPhoneNumber_keeps_oldest env 50 "order_2" phone phone softAutumn
           (managerWith completed) (order1 completed));
    reflexivity.
Defined.

(** [order_1], created at 1000 and never paid, forty days later. *)
Lemma cleanupOldPayments_removes_stale_witness :
  let this := managerWith created in
  let r := cleanupOldPayments fortyDays this in
  let sevenDaysAgo := JSDate.UTC (JSDate.LocalTime fortyDays - 7 * JSDate.msPerDay) in
  pendingPayments r.1 =
    List.filter (λ entry, negb (stale fortyDays entry.2)) (pendingPayments this) ∧
  (∀ pd, stale fortyDays pd = true ↔ createdAt pd < sevenDaysAgo ∧ status pd ≠ completed) ∧
  (JSDate.LocalTZA (JSDate.LocalTime fortyDays - 7 * JSDate.msPerDay) false
     = JSDate.LocalTZA fortyDays true →
   sevenDaysAgo = fortyDays - 7 * (24 * 60 * 60 * 1000)) ∧
  r.2 = List.length (List.filter (λ entry, stale fortyDays entry.2) (pendingPayments this)) ∧
  postPaymentActions r.1 = postPaymentActions this ∧
  (∀ k pd, (k, pd) ∈ pendingPayments this → status pd = completed →
           (k, pd) ∈ pendingPayments r.1).
Proof.
  apply (cleanupOldPayments_removes_stale fortyDays (managerWith created)).
  simpl. apply NoDup_singleton.
Defined.

(** [order_1] after its capture. *)
Lemma captured_order_is_listed_completed_witness :
  markCompleted 10 "pay_1" (pay1 "captured") (order1 created) ∈
    getCompletedPaymentsByPhoneNumber phone
      (updatePaymentFromWebhook 10 "order_1" (pay1 "captured") (managerWith created)).
Proof.
  apply (captured_order_is_listed_completed 10 "order_1" (pay1 "captured")
           (managerWith created) (order1 created)).
  reflexivity.
Defined.

End FurtherPaymentExamples.

Section FurtherExamples.
Import GeminiColorAnalyzer ConversationManager Server Fixtures.
#[local] Existing Instance Fixtures.runtime.
#[local] Existing Instance Fixtures.asciiText.
#[local] Existing Instance Fixtures.kolkata.

(** The user who went through the whole funnel writes again. *)
Lemma paid_session_stays_witness :
  ∃ c', getConversation phone
          (conversationManager
             (handleMessage goodDay (textMessage "hello") (Some "Mina")
                (run toCompleted)).2) = Some c' ∧
        pdfGenerated c' = true ∧
        expired fortyDays c' = false.
Proof.
  eapply (paid_session_stays goodDay (textMessage "hello") (Some "Mina")
            (run toCompleted) phone _ fortyDays).
  - vm_compute. reflexivity.
  - reflexivity.
Defined.

(** The two sessions, written as [idle] then [analysed], are loaded into
    an empty manager. *)
Lemma load_after_save_restores_witness :
  loadConversations (Array [idle; analysed]) {| conversations := ∅ |} = twoSessions.
Proof.
  apply (load_after_save_restores twoSessions {| conversations := ∅ |} [idle; analysed]).
  - intros k c. unfold twoSessions. simpl.
    intros [[<- <-]|[_ [[<- <-]|[_ Hk]]%lookup_insert_Some]]%lookup_insert_Some;
      [reflexivity | reflexivity |].
    by rewrite lookup_empty in Hk.
  - unfold valuesArray, twoSessions. simpl.
    rewrite map_to_list_insert by reflexivity.
    rewrite map_to_list_insert by apply lookup_empty.
    rewrite map_to_list_empty. simpl. apply Permutation_swap.
Defined.

(** The results are shown and the user asks for the guide. *)
Lemma payment_pending_has_order_witness :
  let w := worldIn results_shown (Some softAutumn) in
  let w' := (handlePDFRequest goodDay phone w).2 in
  ∃ a oid pd,
    analysis (conversation w) = Some a ∧
    ordersCreate goodDay = Returned oid ∧
    JSMap.get (PaymentManager.pendingPayments (paymentManager (services w'))) oid
      = Some pd ∧
    PaymentManager.status pd = PaymentManager.created ∧
    PaymentManager.phoneNumber pd = phone ∧
    PaymentManager.analysis pd = a ∧
    paymentLink (conversation w')
      = Some (PaymentManager.baseUrl (processEnv goodDay) +:+ "/pay/" +:+ oid).
Proof.
  apply (payment_pending_has_order goodDay phone (worldIn results_shown (Some softAutumn))).
  - discriminate.
  - reflexivity.
Defined.


(** The phone has paid [order_1] before; it buys again and asks for the
    payment to be checked before paying. *)
Lemma old_paid_order_confirms_new_purchase_witness :
  let w1 := (handlePDFRequest secondOrder phone paidBefore).2 in
  let w2 := (checkPaymentStatus goodDay phone w1).2 in
  PaymentManager.statusOf (paymentManager (services w2)) "order_2"
    = Some PaymentManager.created ∧
  state (conversation w2) = completed ∧
  pdfGenerated (conversation w2) = true.
Proof.
  apply (old_paid_order_confirms_new_purchase secondOrder goodDay phone paidBefore
           softAutumn "order_2" (order1 PaymentManager.completed));
    [intros n|..]; reflexivity.
Defined.




(** An entry of [body.messages] that tells its type by [messageType]. *)
Lemma text_reaches_handler_witness :
  let entry := msgData (Some phone) None (Some "text") (Some "hi") in
  let m := {| from := phone; timestamp := Some 100; type := "text";
              text := None; image := None; interactive := None |} in
  (type m = "text" ∧ is_Some (text m)) ↔
  (AisensyWebhook.type entry = Some "text" ∨
   (false = true ∧ truthy (AisensyWebhook.type entry) = false ∧
    AisensyWebhook.messageType entry = Some "text")).
Proof.
  apply (text_reaches_handler 100 false
           (msgData (Some phone) None (Some "text") (Some "hi")) _ (Some "User")).
  reflexivity.
Defined.

End FurtherExamples.
